(** * GUIPlotter: the table loader, the series selections and the plot step

    A shallow embedding of [guiplotter/data_models.py],
    [guiplotter/data_loader.py] and the handlers of
    [guiplotter/plot_app.py] that carry the program's logic
    ([_add_series], [_refresh_series_lists], [_remove_series],
    [_get_float_from_var], [_plot_series]), followed by the properties of
    the loader, of the selection list and of the plot step.

    Conventions.
    - A Python [str] is a [string]; [None] is [None]; a [list] is a [list].
    - The tkinter widgets are records holding what the handlers read and
      write: a [Listbox] is its rows and its selected row, a [StringVar] is
      its text.
    - A handler is a function on the application state [App].  It may
      raise: its result is [inl e] for an exception [e] that leaves the
      handler, [inr v] for a normal return, paired with the state reached.
    - Message boxes and redraw requests are appended to the [events] of the
      state, in the order the handler issues them.
    - matplotlib is modelled by the structure the handler builds: a
      [Figure] records the axes created, the lines plotted on them and the
      labels, limits, scales and legend set on them.
    - What the program takes from Python, pandas and the file system
      ([float()], [Series * float], [Path.resolve], [Path.exists],
      [pandas.read_csv]) is a parameter: the classes [PyTypes] and
      [Runtime] and the record [FileSystem]. *)

From Stdlib Require Import Ascii String ZArith.
From stdpp Require Import base tactics option list strings pretty.

Local Open Scope string_scope.
Local Open Scope list_scope.
Local Open Scope nat_scope.

(** ** Python strings *)

Module Py.

(** [str.isspace] on the ASCII range: tab, line feed, vertical tab, form
    feed, carriage return, the four separators 0x1c-0x1f, and space. *)
Definition isspace (c : ascii) : bool :=
  let n := nat_of_ascii c in
  (((9 <=? n) && (n <=? 13)) || ((28 <=? n) && (n <=? 32)))%nat.

(** [s.lstrip()] *)
Fixpoint lstrip (s : string) : string :=
  match s with
  | String c s' => if isspace c then lstrip s' else s
  | EmptyString => EmptyString
  end.

(** [s.rstrip()] *)
Definition rstrip (s : string) : string :=
  String.rev (lstrip (String.rev s)).

(** [s.strip()] *)
Definition strip (s : string) : string := rstrip (lstrip s).

(** Truth value of a [str]: [bool(s)]. *)
Definition truthy (s : string) : bool :=
  match s with EmptyString => false | _ => true end.

(** Truth value of a [str | None]. *)
Definition truthy_opt (s : option string) : bool :=
  match s with Some s => truthy s | None => false end.

(** [a or b] on strings. *)
Definition or_else (a b : string) : string := if truthy a then a else b.

(** [name.rfind(".")]: the position of the last dot, if any. *)
Fixpoint rfind_dot (s : string) : option nat :=
  match s with
  | EmptyString => None
  | String c s' =>
      match rfind_dot s' with
      | Some i => Some (S i)
      | None => if Ascii.eqb c "." then Some 0 else None
      end
  end.

(** The text after the last ["/"] of a path: [PurePath.name] of a path
    that does not end in a separator, as resolved paths do not. *)
Fixpoint path_name_go (cur s : string) : string :=
  match s with
  | EmptyString => String.rev cur
  | String c s' =>
      if Ascii.eqb c "/" then path_name_go "" s'
      else path_name_go (String c cur) s'
  end.

Definition path_name (p : string) : string := path_name_go "" p.

(** [PurePath.stem]: the name without its last suffix; a leading or a
    trailing dot does not start a suffix. *)
Definition path_stem (p : string) : string :=
  let name := path_name p in
  match rfind_dot name with
  | Some i =>
      if ((0 <? i) && (i <? String.length name - 1))%nat
      then String.substring 0 i name
      else name
  | None => name
  end.

End Py.

(** ** What the program takes from Python and pandas *)

(** The two kinds of values the program only passes around. *)
Class PyTypes := {
  (** Python's [float]. *)
  float : Type;
  (** An entry of a DataFrame (a number or a string). *)
  cell : Type;
}.

Class Runtime {TY : PyTypes} := {
  (** [float(s)]; [None] when Python raises [ValueError]. *)
  float_of_str : string → option float;
  (** The literal [1.0]. *)
  float_one : float;
  (** [series * k] of pandas; [None] when pandas raises [TypeError]
      (a column of strings). *)
  series_mul : list cell → float → option (list cell);
}.

(** Exceptions that can leave a handler. *)
Inductive exn := IndexError | KeyError | TypeError | ValueError | StopIteration.

Global Instance exn_eq_dec : EqDecision exn.
Proof. solve_decision. Defined.

(** ** data_models.py and the pandas DataFrame *)

Section DataModels.
Context `{RT : Runtime}.

Definition Series := list cell.

(** A pandas [DataFrame]: the column labels, and the rows in file order. *)
Record DataFrame := {
  df_columns : list string;
  df_rows : list (list cell);
}.

(** [df.empty]: one of the two axes has length 0. *)
Definition df_empty (df : DataFrame) : bool :=
  match df_columns df, df_rows df with
  | [], _ | _, [] => true
  | _, _ => false
  end.

(** [c in df.columns] *)
Definition df_has_column (df : DataFrame) (c : string) : bool :=
  bool_decide (c ∈ df_columns df).

(** [df[c]]: the entries of column [c], top to bottom; [None] is pandas'
    [KeyError]. *)
Definition df_getitem (df : DataFrame) (c : string) : option Series :=
  '(i, _) ← list_find (λ c', c' = c) (df_columns df);
  mapM (λ row : list cell, row !! i) (df_rows df).

(** [class DataSet]; [path] is the text of the resolved [Path]. *)
Record DataSet := {
  path : string;
  columns : list string;
  data : DataFrame;
}.

(** [DataSet.name] *)
Definition name (d : DataSet) : string := Py.path_stem (path d).

(** [class SeriesSelection] *)
Record SeriesSelection := {
  dataset_index : nat;
  column : string;
  axis : string;
  label : string;
  color : option string;
}.

End DataModels.

(** ** data_loader.py *)

(** [class DataLoaderError(RuntimeError)]: the one error of the loader,
    told apart by its message. *)
Record DataLoaderError := Raise_DataLoaderError { str_exc : string }.

(** [class SpaceDelimitedLoader] *)
Record SpaceDelimitedLoader := { encoding : string }.

(** [SpaceDelimitedLoader.__init__] with its default argument. *)
Definition SpaceDelimitedLoader_init : SpaceDelimitedLoader :=
  {| encoding := "utf-8" |}.

Section DataLoader.
Context `{RT : Runtime}.

(** The file system as [load] sees it. *)
Record FileSystem := {
  (** [str(Path(file).expanduser().resolve())] *)
  resolve : string → string;
  (** [path.exists()] *)
  path_exists : string → bool;
  (** [pd.read_csv(path, sep=r"\s+", engine="python", encoding=...,
      comment="#")]: the frame, or the text of the exception raised. *)
  read_csv : string → string → string + DataFrame;
}.

(** The body of the [for file in files] loop of [load], up to the
    [DataSet] it appends. *)
Definition load_path (self : SpaceDelimitedLoader) (fs : FileSystem)
    (file : string) : DataLoaderError + DataSet :=
  let path := resolve fs file in
  if negb (path_exists fs path) then
    inl (Raise_DataLoaderError ("File not found: " +:+ path))
  else
    match read_csv fs path (encoding self) with
    | inl exc =>
        inl (Raise_DataLoaderError
               ("Failed to parse " +:+ path +:+ ": " +:+ exc))
    | inr df =>
        if df_empty df then
          inl (Raise_DataLoaderError
                 ("File " +:+ path +:+ " contains no data"))
        else
          inr {| path := path; columns := df_columns df; data := df |}
    end.

(** The loop of [load]; [datasets] is the local list built so far. *)
Fixpoint load_loop (self : SpaceDelimitedLoader) (fs : FileSystem)
    (files : list string) (datasets : list DataSet)
    : DataLoaderError + list DataSet :=
  match files with
  | [] => inr datasets
  | file :: files' =>
      match load_path self fs file with
      | inl e => inl e
      | inr d => load_loop self fs files' (datasets ++ [d])
      end
  end.

(** [SpaceDelimitedLoader.load]: the loader object after the call, and the
    error raised or the list returned. *)
Definition load (self : SpaceDelimitedLoader) (fs : FileSystem)
    (files : list string)
    : SpaceDelimitedLoader * (DataLoaderError + list DataSet) :=
  (self, load_loop self fs files []).

End DataLoader.

(** ** plot_app.py: the state of [PlotApplication] *)

(** [itertools.cycle(colors)]: the saved colors and how many items have
    been taken from the iterator. *)
Record Cycle := {
  palette : list string;
  taken : nat;
}.

(** [next(cycle)]: the colors in turn, starting over after the last one;
    [None] is [StopIteration], raised on an empty palette. *)
Definition cycle_next (c : Cycle) : option (string * Cycle) :=
  match palette c with
  | [] => None
  | _ =>
      color ← palette c !! (taken c mod length (palette c));
      Some (color, {| palette := palette c; taken := S (taken c) |})
  end.

(** [_color_cycle()]; [rc_colors] is the ["color"] entry of matplotlib's
    [rcParams["axes.prop_cycle"].by_key()], [None] when it has none. *)
Definition _color_cycle (rc_colors : option (list string)) : Cycle :=
  let colors := default ["C0"; "C1"; "C2"] rc_colors in
  {| palette := colors; taken := 0 |}.

(** A [tk.Listbox] in its default single-selection mode. *)
Record Listbox := {
  items : list string;
  curselection : option nat;
}.

(** [listbox.delete(0, tk.END)] *)
Definition listbox_delete_all (lb : Listbox) : Listbox :=
  {| items := []; curselection := None |}.

(** [listbox.insert(tk.END, text)] *)
Definition listbox_insert_end (text : string) (lb : Listbox) : Listbox :=
  {| items := items lb ++ [text]; curselection := curselection lb |}.

(** [listbox.selection_clear(0, tk.END); listbox.selection_set(i)] *)
Definition listbox_select_only (i : nat) (lb : Listbox) : Listbox :=
  {| items := items lb;
     curselection := if decide (i < length (items lb)) then Some i else None |}.

(** [listbox.get(i)]: Tk answers the empty string for a row that does
    not exist. *)
Definition listbox_get (lb : Listbox) (i : nat) : string :=
  default "" (items lb !! i).

(** What a handler shows or requests, in order. *)
Inductive Event :=
| showinfo (title message : string)
| showwarning (title message : string)
| showerror (title message : string)
| draw_idle.

Global Instance Event_eq_dec : EqDecision Event.
Proof. solve_decision. Defined.

(** The variables behind the entries of the "Plot Options" frame
    ([_build_axis_controls]); the handlers read them and never set them. *)
Record PlotOptions := {
  x_label_var : string;
  left_label_var : string;
  right_label_var : string;
  show_legend_var : bool;
  x_min_var : string;
  x_max_var : string;
  left_y_min_var : string;
  left_y_max_var : string;
  right_y_min_var : string;
  right_y_max_var : string;
  x_scale_var : string;
  left_y_scale_var : string;
  right_y_scale_var : string;
  x_log_var : bool;
  left_y_log_var : bool;
  right_y_log_var : bool;
}.

(** The values [__init__] gives these variables. *)
Definition PlotOptions_init : PlotOptions :=
  {| x_label_var := "X Axis"; left_label_var := "Left Axis";
     right_label_var := "Right Axis"; show_legend_var := true;
     x_min_var := ""; x_max_var := "";
     left_y_min_var := ""; left_y_max_var := "";
     right_y_min_var := ""; right_y_max_var := "";
     x_scale_var := "1"; left_y_scale_var := "1"; right_y_scale_var := "1";
     x_log_var := false; left_y_log_var := false; right_y_log_var := false |}.

Section Figure.
Context `{RT : Runtime}.

(** A line drawn by [Axes.plot(x_data, y_data, label=..., color=...)]. *)
Record Line2D := {
  xdata : Series;
  ydata : Series;
  line_label : string;
  line_color : option string;
}.

(** A matplotlib [Axes], by what has been drawn and set on it. *)
Record Axes := {
  lines : list Line2D;
  xlabel : string;
  ylabel : string;
  (** [legend(handles, labels, loc="best")], when it was called *)
  legend : option (list Line2D * list string);
  (** [set_xlim(left=, right=)], when it was called *)
  xlim : option (option float * option float);
  (** [set_ylim(bottom=, top=)], when it was called *)
  ylim : option (option float * option float);
  xscale : string;
  yscale : string;
}.

(** An [Axes] as [add_subplot] and [twinx] create it. *)
Definition new_axes : Axes :=
  {| lines := []; xlabel := ""; ylabel := ""; legend := None;
     xlim := None; ylim := None; xscale := "linear"; yscale := "linear" |}.

Definition axes_plot (l : Line2D) (a : Axes) : Axes :=
  {| lines := lines a ++ [l]; xlabel := xlabel a; ylabel := ylabel a;
     legend := legend a; xlim := xlim a; ylim := ylim a;
     xscale := xscale a; yscale := yscale a |}.

Definition axes_set_xlabel (s : string) (a : Axes) : Axes :=
  {| lines := lines a; xlabel := s; ylabel := ylabel a;
     legend := legend a; xlim := xlim a; ylim := ylim a;
     xscale := xscale a; yscale := yscale a |}.

Definition axes_set_ylabel (s : string) (a : Axes) : Axes :=
  {| lines := lines a; xlabel := xlabel a; ylabel := s;
     legend := legend a; xlim := xlim a; ylim := ylim a;
     xscale := xscale a; yscale := yscale a |}.

Definition axes_legend (handles : list Line2D) (labels : list string)
    (a : Axes) : Axes :=
  {| lines := lines a; xlabel := xlabel a; ylabel := ylabel a;
     legend := Some (handles, labels); xlim := xlim a; ylim := ylim a;
     xscale := xscale a; yscale := yscale a |}.

Definition axes_set_xlim (lo hi : option float) (a : Axes) : Axes :=
  {| lines := lines a; xlabel := xlabel a; ylabel := ylabel a;
     legend := legend a; xlim := Some (lo, hi); ylim := ylim a;
     xscale := xscale a; yscale := yscale a |}.

Definition axes_set_ylim (lo hi : option float) (a : Axes) : Axes :=
  {| lines := lines a; xlabel := xlabel a; ylabel := ylabel a;
     legend := legend a; xlim := xlim a; ylim := Some (lo, hi);
     xscale := xscale a; yscale := yscale a |}.

Definition axes_set_xscale (s : string) (a : Axes) : Axes :=
  {| lines := lines a; xlabel := xlabel a; ylabel := ylabel a;
     legend := legend a; xlim := xlim a; ylim := ylim a;
     xscale := s; yscale := yscale a |}.

Definition axes_set_yscale (s : string) (a : Axes) : Axes :=
  {| lines := lines a; xlabel := xlabel a; ylabel := ylabel a;
     legend := legend a; xlim := xlim a; ylim := ylim a;
     xscale := xscale a; yscale := s |}.

(** The two axes a handler can hold: the one [add_subplot(111)] returns
    and its [twinx()]. *)
Inductive AxesRef := LeftAxes | RightAxes.

(** The [Figure]: the axes it holds; [figure.clear()] leaves none. *)
Record Figure := {
  subplot : option Axes;
  twin : option Axes;
}.

Definition figure_cleared : Figure := {| subplot := None; twin := None |}.

Definition figure_add_subplot (f : Figure) : Figure :=
  {| subplot := Some new_axes; twin := twin f |}.

Definition figure_twinx (f : Figure) : Figure :=
  {| subplot := subplot f; twin := Some new_axes |}.

(** A call on the axes [r] refers to. *)
Definition figure_on (r : AxesRef) (g : Axes → Axes) (f : Figure) : Figure :=
  match r with
  | LeftAxes => {| subplot := g <$> subplot f; twin := twin f |}
  | RightAxes => {| subplot := subplot f; twin := g <$> twin f |}
  end.

End Figure.

Section PlotApplication.
Context `{RT : Runtime}.

(** The attributes of [PlotApplication] that its handlers use, and the
    [events] issued so far. *)
Record App := {
  datasets : list DataSet;
  series : list SeriesSelection;
  color_cycle : Cycle;
  dataset_var : string;
  x_column_var : string;
  series_label_var : string;
  options : PlotOptions;
  left_series_indices : list nat;
  right_series_indices : list nat;
  dataset_list : Listbox;
  column_list : Listbox;
  x_column_combo : list string;
  left_series_listbox : Listbox;
  right_series_listbox : Listbox;
  figure : Figure;
  events : list Event;
}.

(** [PlotApplication.__init__]; the figure of [_build_layout] has no
    axes yet. *)
Definition App_init (rc_colors : option (list string)) : App :=
  {| datasets := []; series := []; color_cycle := _color_cycle rc_colors;
     dataset_var := "No datasets loaded"; x_column_var := "";
     series_label_var := ""; options := PlotOptions_init;
     left_series_indices := []; right_series_indices := [];
     dataset_list := {| items := []; curselection := None |};
     column_list := {| items := []; curselection := None |};
     x_column_combo := [];
     left_series_listbox := {| items := []; curselection := None |};
     right_series_listbox := {| items := []; curselection := None |};
     figure := figure_cleared; events := [draw_idle] |}.

(** Assignments to one attribute. *)
Definition set_datasets (v : list DataSet) (a : App) : App :=
  Build_App v (series a) (color_cycle a) (dataset_var a) (x_column_var a)
    (series_label_var a) (options a) (left_series_indices a)
    (right_series_indices a) (dataset_list a) (column_list a)
    (x_column_combo a) (left_series_listbox a) (right_series_listbox a)
    (figure a) (events a).

Definition set_series (v : list SeriesSelection) (a : App) : App :=
  Build_App (datasets a) v (color_cycle a) (dataset_var a) (x_column_var a)
    (series_label_var a) (options a) (left_series_indices a)
    (right_series_indices a) (dataset_list a) (column_list a)
    (x_column_combo a) (left_series_listbox a) (right_series_listbox a)
    (figure a) (events a).

Definition set_color_cycle (v : Cycle) (a : App) : App :=
  Build_App (datasets a) (series a) v (dataset_var a) (x_column_var a)
    (series_label_var a) (options a) (left_series_indices a)
    (right_series_indices a) (dataset_list a) (column_list a)
    (x_column_combo a) (left_series_listbox a) (right_series_listbox a)
    (figure a) (events a).

Definition set_dataset_var (v : string) (a : App) : App :=
  Build_App (datasets a) (series a) (color_cycle a) v (x_column_var a)
    (series_label_var a) (options a) (left_series_indices a)
    (right_series_indices a) (dataset_list a) (column_list a)
    (x_column_combo a) (left_series_listbox a) (right_series_listbox a)
    (figure a) (events a).

Definition set_x_column_var (v : string) (a : App) : App :=
  Build_App (datasets a) (series a) (color_cycle a) (dataset_var a) v
    (series_label_var a) (options a) (left_series_indices a)
    (right_series_indices a) (dataset_list a) (column_list a)
    (x_column_combo a) (left_series_listbox a) (right_series_listbox a)
    (figure a) (events a).

Definition set_series_label_var (v : string) (a : App) : App :=
  Build_App (datasets a) (series a) (color_cycle a) (dataset_var a)
    (x_column_var a) v (options a) (left_series_indices a)
    (right_series_indices a) (dataset_list a) (column_list a)
    (x_column_combo a) (left_series_listbox a) (right_series_listbox a)
    (figure a) (events a).

Definition set_options (v : PlotOptions) (a : App) : App :=
  Build_App (datasets a) (series a) (color_cycle a) (dataset_var a)
    (x_column_var a) (series_label_var a) v (left_series_indices a)
    (right_series_indices a) (dataset_list a) (column_list a)
    (x_column_combo a) (left_series_listbox a) (right_series_listbox a)
    (figure a) (events a).

Definition set_left_series_indices (v : list nat) (a : App) : App :=
  Build_App (datasets a) (series a) (color_cycle a) (dataset_var a)
    (x_column_var a) (series_label_var a) (options a) v
    (right_series_indices a) (dataset_list a) (column_list a)
    (x_column_combo a) (left_series_listbox a) (right_series_listbox a)
    (figure a) (events a).

Definition set_right_series_indices (v : list nat) (a : App) : App :=
  Build_App (datasets a) (series a) (color_cycle a) (dataset_var a)
    (x_column_var a) (series_label_var a) (options a)
    (left_series_indices a) v (dataset_list a) (column_list a)
    (x_column_combo a) (left_series_listbox a) (right_series_listbox a)
    (figure a) (events a).

Definition set_dataset_list (v : Listbox) (a : App) : App :=
  Build_App (datasets a) (series a) (color_cycle a) (dataset_var a)
    (x_column_var a) (series_label_var a) (options a)
    (left_series_indices a) (right_series_indices a) v (column_list a)
    (x_column_combo a) (left_series_listbox a) (right_series_listbox a)
    (figure a) (events a).

Definition set_column_list (v : Listbox) (a : App) : App :=
  Build_App (datasets a) (series a) (color_cycle a) (dataset_var a)
    (x_column_var a) (series_label_var a) (options a)
    (left_series_indices a) (right_series_indices a) (dataset_list a) v
    (x_column_combo a) (left_series_listbox a) (right_series_listbox a)
    (figure a) (events a).

Definition set_x_column_combo (v : list string) (a : App) : App :=
  Build_App (datasets a) (series a) (color_cycle a) (dataset_var a)
    (x_column_var a) (series_label_var a) (options a)
    (left_series_indices a) (right_series_indices a) (dataset_list a)
    (column_list a) v (left_series_listbox a) (right_series_listbox a)
    (figure a) (events a).

Definition set_left_series_listbox (v : Listbox) (a : App) : App :=
  Build_App (datasets a) (series a) (color_cycle a) (dataset_var a)
    (x_column_var a) (series_label_var a) (options a)
    (left_series_indices a) (right_series_indices a) (dataset_list a)
    (column_list a) (x_column_combo a) v (right_series_listbox a)
    (figure a) (events a).

Definition set_right_series_listbox (v : Listbox) (a : App) : App :=
  Build_App (datasets a) (series a) (color_cycle a) (dataset_var a)
    (x_column_var a) (series_label_var a) (options a)
    (left_series_indices a) (right_series_indices a) (dataset_list a)
    (column_list a) (x_column_combo a) (left_series_listbox a) v
    (figure a) (events a).

Definition set_figure (v : Figure) (a : App) : App :=
  Build_App (datasets a) (series a) (color_cycle a) (dataset_var a)
    (x_column_var a) (series_label_var a) (options a)
    (left_series_indices a) (right_series_indices a) (dataset_list a)
    (column_list a) (x_column_combo a) (left_series_listbox a)
    (right_series_listbox a) v (events a).

Definition set_events (v : list Event) (a : App) : App :=
  Build_App (datasets a) (series a) (color_cycle a) (dataset_var a)
    (x_column_var a) (series_label_var a) (options a)
    (left_series_indices a) (right_series_indices a) (dataset_list a)
    (column_list a) (x_column_combo a) (left_series_listbox a)
    (right_series_listbox a) (figure a) v.

(** *** Handlers as state transformers that may raise *)

Definition M (A : Type) : Type := App → (exn + A) * App.

Definition ret {A} (x : A) : M A := λ st, (inr x, st).

Definition bind {A B} (m : M A) (k : A → M B) : M B := λ st,
  match m st with
  | (inl e, st') => (inl e, st')
  | (inr x, st') => k x st'
  end.

Definition raise {A} (e : exn) : M A := λ st, (inl e, st).

Definition get : M App := λ st, (inr st, st).

Definition modify (f : App → App) : M unit := λ st, (inr tt, f st).

(** A message box or a redraw request. *)
Definition emit (ev : Event) : M unit :=
  modify (λ st, set_events (events st ++ [ev]) st).

(** [try: body  except ValueError: return] *)
Definition except_ValueError_return {A} (body : M A) (k : A → M unit)
    : M unit := λ st,
  match body st with
  | (inl ValueError, st') => (inr tt, st')
  | (inl e, st') => (inl e, st')
  | (inr x, st') => k x st'
  end.

End PlotApplication.

(** The handlers are written with stdpp's [x ← m; k] and [m;; k]. *)
Global Instance M_ret {TY : PyTypes} : MRet M := @ret TY.
Global Instance M_bind {TY : PyTypes} : MBind M := λ A B k m, bind m k.

Section Handlers.
Context `{RT : Runtime}.

Definition _current_dataset_index (st : App) : option nat :=
  curselection (dataset_list st).

Definition _current_column_name (st : App) : option string :=
  i ← curselection (column_list st);
  Some (listbox_get (column_list st) i).

(** [self.datasets[i]] *)
Definition datasets_getitem (i : nat) : M DataSet :=
  st ← get;
  match datasets st !! i with
  | Some d => mret d
  | None => raise IndexError
  end.

(** [self.series[i]] *)
Definition series_getitem (i : nat) : M SeriesSelection :=
  st ← get;
  match series st !! i with
  | Some s => mret s
  | None => raise IndexError
  end.

(** *** Dataset management *)

Fixpoint refresh_dataset_loop (l : list DataSet) : M unit :=
  match l with
  | [] => mret tt
  | dataset :: l' =>
      modify (λ st, set_dataset_list
                      (listbox_insert_end (name dataset) (dataset_list st)) st);;
      refresh_dataset_loop l'
  end.

Definition _refresh_dataset_list : M unit :=
  modify (λ st, set_dataset_list (listbox_delete_all (dataset_list st)) st);;
  st ← get;
  refresh_dataset_loop (datasets st).

Definition _clear_column_panel : M unit :=
  modify (λ st, set_column_list (listbox_delete_all (column_list st)) st);;
  modify (set_x_column_combo []);;
  modify (set_x_column_var "").

Fixpoint column_insert_loop (l : list string) : M unit :=
  match l with
  | [] => mret tt
  | column :: l' =>
      modify (λ st, set_column_list
                      (listbox_insert_end column (column_list st)) st);;
      column_insert_loop l'
  end.

Definition _on_dataset_select : M unit :=
  st ← get;
  match curselection (dataset_list st) with
  | None => _clear_column_panel
  | Some i =>
      dataset ← datasets_getitem i;
      modify (set_dataset_var ("Selected: " +:+ name dataset));;
      modify (λ st, set_column_list (listbox_delete_all (column_list st)) st);;
      column_insert_loop (columns dataset);;
      modify (set_x_column_combo (columns dataset));;
      st ← get;
      if bool_decide (x_column_var st ∈ columns dataset) then mret tt
      else
        match columns dataset with
        | c :: _ => modify (set_x_column_var c)
        | [] => modify (set_x_column_var "")
        end
  end.

(** [_prompt_files]; [paths] is what the file dialog returned and
    [loader] the callable given to [__init__]. *)
Definition _prompt_files
    (loader : list string → DataLoaderError + list DataSet)
    (paths : list string) : M unit :=
  match paths with
  | [] => mret tt
  | _ =>
      match loader paths with
      | inl exc => emit (showerror "Failed to load data" (str_exc exc))
      | inr [] => mret tt
      | inr new_datasets =>
          st ← get;
          let start_index := length (datasets st) in
          modify (set_datasets (datasets st ++ new_datasets));;
          st ← get;
          modify (set_dataset_var
                    (pretty (length (datasets st)) +:+ " dataset(s) loaded"));;
          _refresh_dataset_list;;
          modify (λ st, set_dataset_list
                          (listbox_select_only start_index (dataset_list st)) st);;
          _on_dataset_select
      end
  end.

Definition _on_column_select : M unit :=
  st ← get;
  let dataset_idx := _current_dataset_index st in
  let column := _current_column_name st in
  match dataset_idx with
  | None => mret tt
  | Some dataset_idx =>
      if negb (Py.truthy_opt column) then mret tt
      else
        dataset ← datasets_getitem dataset_idx;
        modify (set_series_label_var
                  (name dataset +:+ ": " +:+ default "" column))
  end.

(** *** Series management *)

(** The row shown for a selection in its listbox. *)
Definition series_display (dataset : DataSet) (selection : SeriesSelection)
    : string :=
  let display :=
    label selection +:+ " [" +:+ name dataset +:+ "/" +:+
    column selection +:+ "]" in
  if Py.truthy_opt (color selection)
  then display +:+ " (" +:+ default "" (color selection) +:+ ")"
  else display.

(** The [for index, selection in enumerate(self.series)] loop. *)
Fixpoint refresh_series_loop (index : nat) (l : list SeriesSelection)
    : M unit :=
  match l with
  | [] => mret tt
  | selection :: l' =>
      dataset ← datasets_getitem (dataset_index selection);
      let display := series_display dataset selection in
      (if bool_decide (axis selection = "left") then
         modify (λ st, set_left_series_indices
                         (left_series_indices st ++ [index]) st);;
         modify (λ st, set_left_series_listbox
                         (listbox_insert_end display (left_series_listbox st)) st)
       else
         modify (λ st, set_right_series_indices
                         (right_series_indices st ++ [index]) st);;
         modify (λ st, set_right_series_listbox
                         (listbox_insert_end display (right_series_listbox st)) st));;
      refresh_series_loop (S index) l'
  end.

Definition _refresh_series_lists : M unit :=
  modify (λ st, set_left_series_listbox
                  (listbox_delete_all (left_series_listbox st)) st);;
  modify (λ st, set_right_series_listbox
                  (listbox_delete_all (right_series_listbox st)) st);;
  modify (set_left_series_indices []);;
  modify (set_right_series_indices []);;
  st ← get;
  refresh_series_loop 0 (series st).

Definition _add_series (axis : string) : M unit :=
  st ← get;
  let dataset_index := _current_dataset_index st in
  let column := _current_column_name st in
  let x_column := x_column_var st in
  match dataset_index with
  | None =>
      emit (showinfo "Select dataset"
              "Choose a dataset before adding a series.")
  | Some dataset_index =>
      if negb (Py.truthy_opt column) then
        emit (showinfo "Select column"
                "Choose a column before adding a series.")
      else if negb (Py.truthy x_column) then
        emit (showinfo "Select X column"
                "Choose a column to use for the X axis.")
      else
        let column := default "" column in
        dataset ← datasets_getitem dataset_index;
        if negb (bool_decide (x_column ∈ columns dataset)) then
          emit (showerror "Column unavailable"
                  ("Dataset '" +:+ name dataset +:+
                   "' does not contain column '" +:+ x_column +:+ "'."))
        else
          let label :=
            Py.or_else (Py.strip (series_label_var st))
                       (name dataset +:+ ": " +:+ column) in
          match cycle_next (color_cycle st) with
          | None => raise StopIteration
          | Some (color, cycle') =>
              modify (set_color_cycle cycle');;
              modify (λ st, set_series
                (series st ++
                 [{| dataset_index := dataset_index; column := column;
                     axis := axis; label := label; color := Some color |}])
                st);;
              modify (set_series_label_var "");;
              _refresh_series_lists
          end
  end.

Definition _series_widgets (axis : string) (st : App) : Listbox * list nat :=
  if bool_decide (axis = "left")
  then (left_series_listbox st, left_series_indices st)
  else (right_series_listbox st, right_series_indices st).

Definition _remove_series (axis : string) : M unit :=
  st ← get;
  let '(listbox, index_map) := _series_widgets axis st in
  match curselection listbox with
  | None => mret tt
  | Some row =>
      match index_map !! row with
      | None => raise IndexError
      | Some target =>
          if decide (target < length (series st)) then
            modify (set_series (delete target (series st)));;
            _refresh_series_lists
          else raise IndexError
      end
  end.

(** The selection [_update_series_color] builds from the old one. *)
Definition recolored (hex_color : option string) (old : SeriesSelection)
    : SeriesSelection :=
  {| dataset_index := dataset_index old; column := column old;
     axis := axis old; label := label old; color := hex_color |}.

(** [_update_series_color]; [hex_color] is the second component of what
    [colorchooser.askcolor] returned. *)
Definition _update_series_color (axis : string) (hex_color : option string)
    : M unit :=
  st ← get;
  let '(listbox, index_map) := _series_widgets axis st in
  match curselection listbox with
  | None => mret tt
  | Some row =>
      match index_map !! row with
      | None => raise IndexError
      | Some target =>
          old ← series_getitem target;
          if Py.truthy_opt hex_color then
            modify (set_series
                      (<[target := recolored hex_color old]> (series st)));;
            _refresh_series_lists
          else mret tt
      end
  end.

(** [_get_float_from_var]; [value] is [var.get()]. *)
Definition _get_float_from_var (value : string) (label : string)
    (default : option float) : M (option float) :=
  let value := Py.strip value in
  if negb (Py.truthy value) then mret default
  else
    match float_of_str value with
    | Some x => mret (Some x)
    | None =>
        emit (showerror "Invalid value"
                ("Enter a numeric value for " +:+ label +:+ "."));;
        raise ValueError
    end.

(** *** Plotting *)

(** The numbers read at the start of [_plot_series]. *)
Record PlotNumbers := {
  x_scale : option float;
  left_y_scale : option float;
  right_y_scale : option float;
  x_min : option float;
  x_max : option float;
  left_y_min : option float;
  left_y_max : option float;
  right_y_min : option float;
  right_y_max : option float;
}.

(** The body of the [try] of [_plot_series]. *)
Definition read_plot_numbers (o : PlotOptions) : M PlotNumbers :=
  x_scale ← _get_float_from_var (x_scale_var o) "X axis scale" (Some float_one);
  left_y_scale ←
    _get_float_from_var (left_y_scale_var o) "Left axis scale" (Some float_one);
  right_y_scale ←
    _get_float_from_var (right_y_scale_var o) "Right axis scale" (Some float_one);
  x_min ← _get_float_from_var (x_min_var o) "X axis minimum" None;
  x_max ← _get_float_from_var (x_max_var o) "X axis maximum" None;
  left_y_min ← _get_float_from_var (left_y_min_var o) "Left axis minimum" None;
  left_y_max ← _get_float_from_var (left_y_max_var o) "Left axis maximum" None;
  right_y_min ← _get_float_from_var (right_y_min_var o) "Right axis minimum" None;
  right_y_max ← _get_float_from_var (right_y_max_var o) "Right axis maximum" None;
  mret {| x_scale := x_scale; left_y_scale := left_y_scale;
          right_y_scale := right_y_scale; x_min := x_min; x_max := x_max;
          left_y_min := left_y_min; left_y_max := left_y_max;
          right_y_min := right_y_min; right_y_max := right_y_max |}.

(** The local variables the plotting loop updates. *)
Record PlotLocals := {
  ax_right : option AxesRef;
  legend_handles : list Line2D;
  legend_labels : list string;
}.

(** [dataset.data[c]] *)
Definition data_getitem (dataset : DataSet) (c : string) : M Series :=
  match df_getitem (data dataset) c with
  | Some s => mret s
  | None => raise KeyError
  end.

(** [s * k] for a Series [s] and a [float | None] [k]. *)
Definition series_times (s : Series) (k : option float) : M Series :=
  match k with
  | None => raise TypeError
  | Some k =>
      match series_mul s k with
      | Some s' => mret s'
      | None => raise TypeError
      end
  end.

(** A call on one of the axes of [self.figure]. *)
Definition on_axes (r : AxesRef) (g : Axes → Axes) : M unit :=
  modify (λ st, set_figure (figure_on r g (figure st)) st).

(** The [for selection in self.series] loop of [_plot_series]. *)
Fixpoint plot_loop (x_column : string) (n : PlotNumbers)
    (l : list SeriesSelection) (loc : PlotLocals) : M PlotLocals :=
  match l with
  | [] => mret loc
  | selection :: l' =>
      dataset ← datasets_getitem (dataset_index selection);
      if negb (df_has_column (data dataset) (column selection)) then
        emit (showwarning "Missing column"
                ("Column '" +:+ column selection +:+
                 "' no longer exists in dataset '" +:+ name dataset +:+ "'."));;
        plot_loop x_column n l' loc
      else if negb (df_has_column (data dataset) x_column) then
        emit (showwarning "Missing column"
                ("Column '" +:+ x_column +:+
                 "' not found in dataset '" +:+ name dataset +:+ "'."));;
        plot_loop x_column n l' loc
      else
        x_data ← data_getitem dataset x_column;
        y_data ← data_getitem dataset (column selection);
        x_data ← series_times x_data (x_scale n);
        let y_scale :=
          if bool_decide (axis selection = "left")
          then left_y_scale n else right_y_scale n in
        y_data ← series_times y_data y_scale;
        let target_axis :=
          if bool_decide (axis selection = "left")
          then Some LeftAxes else ax_right loc in
        '(ax_right, target_axis) ←
          match target_axis with
          | None =>
              modify (λ st, set_figure (figure_twinx (figure st)) st);;
              mret (Some RightAxes, RightAxes)
          | Some target_axis => mret (ax_right loc, target_axis)
          end;
        let line :=
          {| xdata := x_data; ydata := y_data;
             line_label := label selection;
             line_color := color selection |} in
        on_axes target_axis (axes_plot line);;
        plot_loop x_column n l'
          {| ax_right := ax_right;
             legend_handles := legend_handles loc ++ [line];
             legend_labels := legend_labels loc ++ [label selection] |}
  end.

Definition is_not_None {A} (o : option A) : bool :=
  match o with Some _ => true | None => false end.

(** [_plot_series] after the loop: labels, legend, limits, scales and
    the redraw request. *)
Definition finish_figure (x_column : string) (n : PlotNumbers)
    (o : PlotOptions) (loc : PlotLocals) : M unit :=
  on_axes LeftAxes
    (axes_set_xlabel (Py.or_else (Py.strip (x_label_var o)) x_column));;
  on_axes LeftAxes
    (axes_set_ylabel (Py.or_else (Py.strip (left_label_var o)) "Left Axis"));;
  match ax_right loc with
  | Some r =>
      on_axes r
        (axes_set_ylabel (Py.or_else (Py.strip (right_label_var o)) "Right Axis"))
  | None => mret tt
  end;;
  (if show_legend_var o && bool_decide (legend_handles loc ≠ []) then
     on_axes LeftAxes (axes_legend (legend_handles loc) (legend_labels loc))
   else mret tt);;
  (if is_not_None (x_min n) || is_not_None (x_max n) then
     on_axes LeftAxes (axes_set_xlim (x_min n) (x_max n))
   else mret tt);;
  (if is_not_None (left_y_min n) || is_not_None (left_y_max n) then
     on_axes LeftAxes (axes_set_ylim (left_y_min n) (left_y_max n))
   else mret tt);;
  match ax_right loc with
  | Some r =>
      if is_not_None (right_y_min n) || is_not_None (right_y_max n) then
        on_axes r (axes_set_ylim (right_y_min n) (right_y_max n))
      else mret tt
  | None => mret tt
  end;;
  on_axes LeftAxes (axes_set_xscale (if x_log_var o then "log" else "linear"));;
  on_axes LeftAxes
    (axes_set_yscale (if left_y_log_var o then "log" else "linear"));;
  match ax_right loc with
  | Some r =>
      on_axes r
        (axes_set_yscale (if right_y_log_var o then "log" else "linear"))
  | None => mret tt
  end;;
  emit draw_idle.

(** [_plot_series] from [self.figure.clear()] on. *)
Definition plot_figure (x_column : string) (n : PlotNumbers) : M unit :=
  modify (set_figure figure_cleared);;
  modify (λ st, set_figure (figure_add_subplot (figure st)) st);;
  st ← get;
  loc ← plot_loop x_column n (series st)
          {| ax_right := None; legend_handles := []; legend_labels := [] |};
  finish_figure x_column n (options st) loc.

Definition _plot_series : M unit :=
  st ← get;
  match series st with
  | [] => emit (showinfo "No series" "Add at least one series to plot.")
  | _ =>
      let x_column := x_column_var st in
      if negb (Py.truthy x_column) then
        emit (showinfo "Select X column" "Choose a column for the X axis.")
      else
        except_ValueError_return (read_plot_numbers (options st))
          (plot_figure x_column)
  end.

Definition _clear_plot : M unit :=
  modify (set_figure figure_cleared);;
  emit draw_idle.

End Handlers.

(** ** Notions used in the statements *)

Section Notions.
Context `{RT : Runtime}.

(** A path loads to a table when the body of the loop of [load] reaches
    its [append] with that table. *)
Definition loads (self : SpaceDelimitedLoader) (fs : FileSystem)
    (file : string) (t : DataSet) : Prop :=
  load_path self fs file = inr t ∧ path t = resolve fs file.

(** The state without the two series listboxes and their index maps:
    what [_refresh_series_lists] leaves alone. *)
Definition sans_series_lists (st : App) : App :=
  set_left_series_listbox (listbox_delete_all (left_series_listbox st))
    (set_right_series_listbox (listbox_delete_all (right_series_listbox st))
       (set_left_series_indices [] (set_right_series_indices [] st))).

(** The state without the figure and the events: what [_plot_series]
    leaves alone. *)
Definition sans_figure (st : App) : App :=
  set_figure figure_cleared (set_events [] st).

(** The state with one more event. *)
Definition with_event (ev : Event) (st : App) : App :=
  set_events (events st ++ [ev]) st.

(** Every selection refers to a loaded dataset. *)
Definition valid_refs (st : App) : Prop :=
  Forall (λ s, dataset_index s < length (datasets st)) (series st).

(** The positions, counted from [index], of the selections of [l] that
    are on the left axis ([left = true]) or not on it ([left = false]). *)
Fixpoint positions (left : bool) (index : nat) (l : list SeriesSelection)
    : list nat :=
  match l with
  | [] => []
  | s :: l' =>
      if bool_decide (bool_decide (axis s = "left") = left)
      then index :: positions left (S index) l'
      else positions left (S index) l'
  end.

(** The rows of a series listbox for the selections of [l] on that side. *)
Fixpoint displays (ds : list DataSet) (left : bool)
    (l : list SeriesSelection) : list string :=
  match l with
  | [] => []
  | s :: l' =>
      if bool_decide (bool_decide (axis s = "left") = left)
      then match ds !! dataset_index s with
           | Some d => series_display d s :: displays ds left l'
           | None => displays ds left l'
           end
      else displays ds left l'
  end.

(** The index maps are those [_refresh_series_lists] builds from the
    selection list. *)
Definition synced (st : App) : Prop :=
  left_series_indices st = positions true 0 (series st) ∧
  right_series_indices st = positions false 0 (series st).

(** The selections listed for an axis: those the index map of
    [_series_widgets] points to, in the order of the rows. *)
Definition selections_for_axis (axis : string) (st : App)
    : list SeriesSelection :=
  omap (λ i, series st !! i) (_series_widgets axis st).2.

(** The conditions under which [_add_series] goes past its four checks:
    dataset [i] is selected and is [d], column [c] is selected and not
    empty, and the x column is set and among the columns of [d]. *)
Definition add_ready (st : App) (i : nat) (d : DataSet) (c : string) : Prop :=
  curselection (dataset_list st) = Some i ∧
  datasets st !! i = Some d ∧
  _current_column_name st = Some c ∧ c ≠ "" ∧
  x_column_var st ≠ "" ∧ x_column_var st ∈ columns d.

(** The label [_add_series] gives a selection of column [c] of [d]. *)
Definition label_for (st : App) (d : DataSet) (c : string) : string :=
  Py.or_else (Py.strip (series_label_var st)) (name d +:+ ": " +:+ c).

(** The entries read at the start of [_plot_series], with their labels,
    in the order they are read. *)
Definition plot_fields (o : PlotOptions) : list (string * string) :=
  [(x_scale_var o, "X axis scale");
   (left_y_scale_var o, "Left axis scale");
   (right_y_scale_var o, "Right axis scale");
   (x_min_var o, "X axis minimum");
   (x_max_var o, "X axis maximum");
   (left_y_min_var o, "Left axis minimum");
   (left_y_max_var o, "Left axis maximum");
   (right_y_min_var o, "Right axis minimum");
   (right_y_max_var o, "Right axis maximum")].

(** An entry is blank when nothing is left of it after [strip()]. *)
Definition blank (text : string) : bool := negb (Py.truthy (Py.strip text)).

(** An entry is rejected when it is not blank and [float()] raises on it. *)
Definition rejected (text : string) : bool :=
  negb (blank text) && negb (is_not_None (float_of_str (Py.strip text))).

(** The label of the first rejected entry. *)
Fixpoint first_rejected_in (fields : list (string * string)) : option string :=
  match fields with
  | [] => None
  | (text, lbl) :: fields' =>
      if rejected text then Some lbl else first_rejected_in fields'
  end.

Definition first_rejected (o : PlotOptions) : option string :=
  first_rejected_in (plot_fields o).

(** The number an entry that is not rejected stands for. *)
Definition number_of (text : string) (default : option float)
    : option float :=
  if blank text then default else float_of_str (Py.strip text).

(** The numbers [_plot_series] works with when no entry is rejected. *)
Definition numbers (o : PlotOptions) : PlotNumbers :=
  {| x_scale := number_of (x_scale_var o) (Some float_one);
     left_y_scale := number_of (left_y_scale_var o) (Some float_one);
     right_y_scale := number_of (right_y_scale_var o) (Some float_one);
     x_min := number_of (x_min_var o) None;
     x_max := number_of (x_max_var o) None;
     left_y_min := number_of (left_y_min_var o) None;
     left_y_max := number_of (left_y_max_var o) None;
     right_y_min := number_of (right_y_min_var o) None;
     right_y_max := number_of (right_y_max_var o) None |}.

(** A selection can be drawn when its dataset holds both its column and
    the x column. *)
Definition plottable (ds : list DataSet) (x_column : string)
    (s : SeriesSelection) : bool :=
  match ds !! dataset_index s with
  | Some d =>
      df_has_column (data d) (column s) && df_has_column (data d) x_column
  | None => false
  end.

(** The warning [_plot_series] shows for a selection it cannot draw. *)
Definition missing_warning (ds : list DataSet) (x_column : string)
    (s : SeriesSelection) : option Event :=
  d ← ds !! dataset_index s;
  if negb (df_has_column (data d) (column s)) then
    Some (showwarning "Missing column"
            ("Column '" +:+ column s +:+
             "' no longer exists in dataset '" +:+ name d +:+ "'."))
  else if negb (df_has_column (data d) x_column) then
    Some (showwarning "Missing column"
            ("Column '" +:+ x_column +:+
             "' not found in dataset '" +:+ name d +:+ "'."))
  else None.

(** The line [_plot_series] draws for a selection; [None] when pandas
    raises on one of the two products. *)
Definition line_of (ds : list DataSet) (x_column : string) (n : PlotNumbers)
    (s : SeriesSelection) : option Line2D :=
  d ← ds !! dataset_index s;
  x_data ← df_getitem (data d) x_column;
  y_data ← df_getitem (data d) (column s);
  x_scale ← x_scale n;
  x_data ← series_mul x_data x_scale;
  y_scale ← (if bool_decide (axis s = "left")
             then left_y_scale n else right_y_scale n);
  y_data ← series_mul y_data y_scale;
  Some {| xdata := x_data; ydata := y_data;
          line_label := label s; line_color := color s |}.

(** The lines on one of the two axes of a figure, if it is there. *)
Definition axes_lines (r : AxesRef) (f : Figure) : option (list Line2D) :=
  lines <$> match r with LeftAxes => subplot f | RightAxes => twin f end.

(** The lines drawn, in order, for the selections of [l] that can be
    drawn and are on the left axis ([left = true]) or not on it. *)
Definition drawn_lines (ds : list DataSet) (x_column : string)
    (n : PlotNumbers) (left : bool) (l : list SeriesSelection)
    : list Line2D :=
  omap (line_of ds x_column n)
    (filter (λ s, plottable ds x_column s = true ∧
                  bool_decide (axis s = "left") = left) l).


(** A handler step that returns and leaves the events and the lines of
    both axes as they are. *)
Definition lines_kept (m : M unit) : Prop :=
  ∀ st,
    (m st).1 = inr tt ∧ events (m st).2 = events st ∧
    sans_figure (m st).2 = sans_figure st ∧
    ∀ r, axes_lines r (figure (m st).2) = axes_lines r (figure st).


(** Two runs of a handler step from states that differ at most in their
    events give the same result, leave alike what [_plot_series] leaves
    alone, build the same figure and issue the same events. *)
Definition plot_step {A} (m : M A) : Prop :=
  ∀ st st',
    sans_figure st' = sans_figure st → figure st' = figure st →
    (m st').1 = (m st).1 ∧
    sans_figure (m st).2 = sans_figure st ∧
    figure (m st').2 = figure (m st).2 ∧
    ∃ evs, events (m st).2 = events st ++ evs ∧
           events (m st').2 = events st' ++ evs.

End Notions.


(** ** Notions for the session as a whole *)

Section SessionNotions.
Context `{RT : Runtime}.

(** [SpaceDelimitedLoader().load], the callable [space_delimited_main] of
    [entrypoints.py] hands to [PlotApplication]. *)
Definition space_delimited_loader (fs : FileSystem) (paths : list string)
    : DataLoaderError + list DataSet :=
  (load SpaceDelimitedLoader_init fs paths).2.

(** The dataset list shows the names of the datasets, and its selected
    row, if any, is one of them. *)
Definition dataset_list_ok (st : App) : Prop :=
  items (dataset_list st) = name <$> datasets st ∧
  ∀ i, curselection (dataset_list st) = Some i → i < length (datasets st).

(** The column list and the x column combobox show the columns of the
    selected dataset, the x column is one of them unless there is none,
    and the selected row of the column list, if any, is one of its rows.
    With no dataset selected they are empty and the x column is unset. *)
Definition column_panel_ok (st : App) : Prop :=
  match curselection (dataset_list st) with
  | Some i =>
      ∃ d, datasets st !! i = Some d ∧
           items (column_list st) = columns d ∧
           x_column_combo st = columns d ∧
           (columns d ≠ [] → x_column_var st ∈ columns d)
  | None =>
      items (column_list st) = [] ∧ x_column_combo st = [] ∧
      x_column_var st = ""
  end ∧
  ∀ j, curselection (column_list st) = Some j →
       j < length (items (column_list st)).

(** The two series lists show the selections of their side, and their
    selected rows, if any, have an entry in the index maps. *)
Definition series_lists_ok (st : App) : Prop :=
  synced st ∧
  items (left_series_listbox st) = displays (datasets st) true (series st) ∧
  items (right_series_listbox st) = displays (datasets st) false (series st) ∧
  (∀ r, curselection (left_series_listbox st) = Some r →
        r < length (left_series_indices st)) ∧
  (∀ r, curselection (right_series_listbox st) = Some r →
        r < length (right_series_indices st)).

(** The session is consistent: the selections refer to loaded datasets
    and every widget shows what it stands for. *)
Definition consistent (st : App) : Prop :=
  valid_refs st ∧ series_lists_ok st ∧ dataset_list_ok st ∧
  column_panel_ok st.

(** The x column [_on_dataset_select] leaves for a dataset: the old one
    when the dataset has it, else the first column, else none. *)
Definition x_column_for (old : string) (d : DataSet) : string :=
  if bool_decide (old ∈ columns d) then old
  else match columns d with c :: _ => c | [] => "" end.

(** The user selects row [row] of the series list of an axis. *)
Definition pick_series_row (axis : string) (row : nat) (st : App) : App :=
  if bool_decide (axis = "left")
  then set_left_series_listbox
         (listbox_select_only row (left_series_listbox st)) st
  else set_right_series_listbox
         (listbox_select_only row (right_series_listbox st)) st.

(** Every selection names a column of the dataset it refers to. *)
Definition columns_ok (st : App) : Prop :=
  Forall (λ s, ∃ d, datasets st !! dataset_index s = Some d ∧
                    column s ∈ columns d)
    (series st).

(** The datasets are as [load] builds them: their [columns] are the
    columns of their frame. *)
Definition frames_ok (st : App) : Prop :=
  Forall (λ d, columns d = df_columns (data d)) (datasets st).

(** The axes [a] with the lines [ls] plotted on them, one after the
    other. *)
Definition with_lines (ls : list Line2D) (a : Axes) : Axes :=
  {| lines := lines a ++ ls; xlabel := xlabel a; ylabel := ylabel a;
     legend := legend a; xlim := xlim a; ylim := ylim a;
     xscale := xscale a; yscale := yscale a |}.

(** The selections of [l] that can be drawn, of both sides. *)
Definition drawable (ds : list DataSet) (x_column : string)
    (l : list SeriesSelection) : list SeriesSelection :=
  filter (λ s, plottable ds x_column s = true) l.

(** What [set_xlim] or [set_ylim] has been called with, if it has:
    [_plot_series] calls it when one of the two bounds is given. *)
Definition limits (lo hi : option float)
    : option (option float * option float) :=
  if is_not_None lo || is_not_None hi then Some (lo, hi) else None.

(** The scale [_plot_series] sets for a checkbox. *)
Definition scale_of (log : bool) : string :=
  if log then "log" else "linear".

(** The conditions under which [_plot_series] builds the whole figure:
    there is a selection, the x column is set, no entry is rejected, every
    selection refers to a loaded dataset and pandas computes the products
    for the selections that can be drawn. *)
Definition plot_ready (st : App) : Prop :=
  series st ≠ [] ∧ x_column_var st ≠ "" ∧
  first_rejected (options st) = None ∧ valid_refs st ∧
  Forall (λ s, plottable (datasets st) (x_column_var st) s = true →
               is_Some (line_of (datasets st) (x_column_var st)
                          (numbers (options st)) s))
    (series st).

(** The user selects row [row] of the dataset list, or of the column
    list. *)
Definition pick_dataset_row (row : nat) (st : App) : App :=
  set_dataset_list (listbox_select_only row (dataset_list st)) st.

Definition pick_column_row (row : nat) (st : App) : App :=
  set_column_list (listbox_select_only row (column_list st)) st.

(** The states of a session of [space_delimited_main]: the state
    [__init__] builds, and the states the widgets of [_build_layout] lead
    to from there.  A button runs its command; a click in the dataset list
    or in the column list selects a row and runs the handler bound to
    [<<ListboxSelect>>]; a click in a series list selects a row; the x
    column combobox is read-only and offers its values; the entries and
    check boxes set their variables.  A handler that raises leaves the
    state it has reached, and the main loop goes on. *)
Inductive session : App → Prop :=
  | session_start (rc_colors : option (list string)) :
      session (App_init rc_colors)
  | session_open_files (fs : FileSystem) (paths : list string) st :
      session st →
      session (_prompt_files (space_delimited_loader fs) paths st).2
  | session_dataset_click (row : nat) st :
      session st → session (_on_dataset_select (pick_dataset_row row st)).2
  | session_column_click (row : nat) st :
      session st → session (_on_column_select (pick_column_row row st)).2
  | session_x_column (c : string) st :
      session st → c ∈ x_column_combo st → session (set_x_column_var c st)
  | session_series_label (text : string) st :
      session st → session (set_series_label_var text st)
  | session_options (o : PlotOptions) st :
      session st → session (set_options o st)
  | session_series_click (axis : string) (row : nat) st :
      session st → session (pick_series_row axis row st)
  | session_add (axis : string) st :
      session st → session (_add_series axis st).2
  | session_remove (axis : string) st :
      session st → session (_remove_series axis st).2
  | session_color (axis : string) (hex_color : option string) st :
      session st → session (_update_series_color axis hex_color st).2
  | session_plot st : session st → session (_plot_series st).2
  | session_clear st : session st → session (_clear_plot st).2.

End SessionNotions.

(** ** A small runtime, file system and session for the examples *)

Module Demo.

(** Decimal digits to a number, most significant first. *)
Fixpoint digits_value (acc : Z) (s : string) : option Z :=
  match s with
  | EmptyString => Some acc
  | String c s' =>
      let n := nat_of_ascii c in
      if ((48 <=? n) && (n <=? 57))%nat
      then digits_value (10 * acc + Z.of_nat (n - 48)) s'
      else None
  end.

(** The numbers of the examples are integers written in decimal, with an
    optional minus sign; any other text, blank text included, is rejected,
    as [float()] rejects blank text. *)
Definition int_of_str (s : string) : option Z :=
  match s with
  | EmptyString => None
  | String "-" (String c s') => Z.opp <$> digits_value 0 (String c s')
  | _ => digits_value 0 s
  end.

Inductive value := Num (z : Z) | Str (s : string).

Definition value_times (k : Z) (v : value) : option value :=
  match v with
  | Num z => Some (Num (z * k))
  | Str _ => None
  end.

#[export] Instance types : PyTypes := {| float := Z; cell := value |}.

#[export] Instance runtime : Runtime := {|
  float_of_str := int_of_str;
  float_one := 1%Z;
  series_mul := λ s k, mapM (value_times k) s;
|}.

(** Three well-formed files, a header-only file, and a file pandas cannot
    parse; nothing else exists. *)
Definition run1 : DataFrame :=
  {| df_columns := ["a"; "b"; "c"];
     df_rows := [[Num 1; Num 2; Num 3]; [Num 4; Num 5; Num 6]] |}.

Definition run2 : DataFrame :=
  {| df_columns := ["a"; "tag"];
     df_rows := [[Num 10; Str "lo"]; [Num 20; Str "hi"]] |}.

Definition run3 : DataFrame :=
  {| df_columns := ["t"; "v"];
     df_rows := [[Num 0; Num 7]; [Num 1; Num 8]; [Num 2; Num 9]] |}.

Definition header_only : DataFrame :=
  {| df_columns := ["a"; "b"; "c"]; df_rows := [] |}.

Definition fs : FileSystem := {|
  resolve := λ file, "/data/" +:+ file;
  path_exists := λ p,
    bool_decide (p ∈ ["/data/run1.txt"; "/data/run2.dat"; "/data/run3.dat";
                      "/data/header.txt"; "/data/broken.txt"]);
  read_csv := λ p _,
    if bool_decide (p = "/data/run1.txt") then inr run1
    else if bool_decide (p = "/data/run2.dat") then inr run2
    else if bool_decide (p = "/data/run3.dat") then inr run3
    else if bool_decide (p = "/data/header.txt") then inr header_only
    else inl "No columns to parse from file";
|}.

Definition loader (paths : list string) : DataLoaderError + list DataSet :=
  (load SpaceDelimitedLoader_init fs paths).2.

(** The state a handler leaves. *)
Definition after (h : M unit) (st : App) : App := (h st).2.


(** The user picks row [i] of the column list. *)
Definition pick_column (i : nat) : M unit :=
  modify (λ st, set_column_list (listbox_select_only i (column_list st)) st);;
  _on_column_select.

(** The user picks row [i] of the left series list. *)
Definition pick_left_series (i : nat) : M unit :=
  modify (λ st, set_left_series_listbox
                  (listbox_select_only i (left_series_listbox st)) st).

(** The three files opened; the first one is selected, [a] is the x
    column. *)
Definition opened : App :=
  Eval vm_compute in
  after (_prompt_files loader ["run1.txt"; "run2.dat"; "run3.dat"])
    (App_init None).

(** Column [b] chosen in the column list. *)
Definition column_b : App :=
  Eval vm_compute in
  after (pick_column 1) opened.

(** [b] on the left axis, [c] on the right axis, [b] on the left again. *)
Definition three_series : App :=
  Eval vm_compute in
  after (_add_series "left";; pick_column 2;; _add_series "right";;
         pick_column 1;; _add_series "left") column_b.


(** The second row of the left list selected. *)
Definition second_left_row : App :=
  Eval vm_compute in
  after (pick_left_series 1) three_series.

(** The x column cleared. *)
Definition no_x_column : App :=
  Eval vm_compute in
  set_x_column_var "" three_series.

(** Column [b] chosen, and an x column the first dataset does not have. *)
Definition foreign_x_column : App :=
  Eval vm_compute in
  set_x_column_var "t" column_b.

(** Column [b] of the first dataset still chosen in the column list while
    the dataset list has the second dataset selected. *)
Definition stale_column_list : App :=
  Eval vm_compute in
  set_dataset_list (listbox_select_only 1 (dataset_list column_b)) column_b.

(** A dataset selection past the end of the dataset list. *)
Definition stale_dataset_list : App :=
  Eval vm_compute in
  set_dataset_list {| items := ["run1"; "run2"; "run3"; "run4"];
                      curselection := Some 3 |} column_b.










End Demo.

(** * Properties *)

(** ** The loader *)

Section LoaderFacts.
Context `{RT : Runtime}.
Implicit Types (self : SpaceDelimitedLoader) (fs : FileSystem).

Lemma load_path_path self fs file t :
  load_path self fs file = inr t → path t = resolve fs file.
Proof.
  unfold load_path. intros Hload.
  destruct (negb _); [done|].
  destruct (read_csv _ _ _) as [?|df]; [done|].
  destruct (df_empty df); [done|].
  by inversion Hload.
Qed.

(** The loop either extends [acc] by one table per remaining path, or
    stops at the first path that fails, with that path's error. *)
Lemma load_loop_inv self fs files acc :
  match load_loop self fs files acc with
  | inr tables =>
      ∃ new : list DataSet,
        tables = acc ++ new ∧ Forall2 (loads self fs) files new
  | inl err =>
      ∃ (before : list string) (file : string) (rest : list string),
        files = before ++ file :: rest ∧
        Forall (λ f, ∃ t, loads self fs f t) before ∧
        load_path self fs file = inl err
  end.
Proof.
  revert acc. induction files as [|file files IH]; intros acc; simpl.
  - exists []. by rewrite app_nil_r.
  - destruct (load_path self fs file) as [e|d] eqn:Hfile.
    + by exists [], file, files.
    + specialize (IH (acc ++ [d])).
      assert (loads self fs file d) as Hd
        by (split; [done | by eapply load_path_path]).
      destruct (load_loop self fs files (acc ++ [d])) as [err|tables].
      * destruct IH as (before & f & rest & -> & Hbefore & Hf).
        exists (file :: before), f, rest. split_and!; [done| |done].
        constructor; eauto.
      * destruct IH as (new & -> & Hnew).
        exists (d :: new). split; [by rewrite <- app_assoc|].
        by constructor.
Qed.

(** C1. For every sequence of paths, [load] returns one table per path,
    in the order of the paths (the i-th table is what the i-th path loads
    to, and carries that path resolved), or else a single error: the one of
    the first path that fails, every path before it having loaded.  The
    result is either the error or the full list, never a part of the list,
    and the loader object is the same after the call as before. *)
Theorem load_one_table_per_path_or_one_error self fs files :
  (load self fs files).1 = self ∧
  match (load self fs files).2 with
  | inr tables => Forall2 (loads self fs) files tables
  | inl err =>
      ∃ (before : list string) (file : string) (rest : list string),
        files = before ++ file :: rest ∧
        Forall (λ f, ∃ t, loads self fs f t) before ∧
        load_path self fs file = inl err
  end.
Proof.
  split; [done|]. simpl.
  pose proof (load_loop_inv self fs files []) as Hinv.
  destruct (load_loop self fs files []) as [err|tables]; [done|].
  by destruct Hinv as (new & -> & Hnew).
Qed.


End LoaderFacts.

(** ** The selection list *)

(** Unfolds the plumbing of the handlers. *)
Ltac run :=
  unfold mbind, M_bind, bind, mret, M_ret, ret, modify, emit, get, raise;
  simpl.

Section SelectionFacts.
Context `{RT : Runtime}.
Implicit Types (st : App) (l : list SeriesSelection) (s : SeriesSelection).

Lemma truthy_true (text : string) : Py.truthy text = true ↔ text ≠ "".
Proof. by destruct text. Qed.

Lemma truthy_false (text : string) : Py.truthy text = false ↔ text = "".
Proof. by destruct text. Qed.

(** *** [_refresh_series_lists] *)

Lemma refresh_series_loop_frame l index st :
  sans_series_lists (refresh_series_loop index l st).2 = sans_series_lists st.
Proof.
  revert index st. induction l as [|s l IH]; intros index st; [done|].
  simpl. unfold datasets_getitem. run.
  destruct (datasets st !! dataset_index s) as [d|]; simpl; [|done].
  case_bool_decide; simpl; by rewrite IH.
Qed.

Lemma refresh_series_lists_frame st :
  sans_series_lists (_refresh_series_lists st).2 = sans_series_lists st.
Proof. unfold _refresh_series_lists. run. by rewrite refresh_series_loop_frame. Qed.

Lemma refresh_series_lists_series st :
  series (_refresh_series_lists st).2 = series st.
Proof. apply (f_equal series (refresh_series_lists_frame st)). Qed.

Lemma refresh_series_lists_datasets st :
  datasets (_refresh_series_lists st).2 = datasets st.
Proof. apply (f_equal datasets (refresh_series_lists_frame st)). Qed.

Lemma refresh_series_lists_color_cycle st :
  color_cycle (_refresh_series_lists st).2 = color_cycle st.
Proof. apply (f_equal color_cycle (refresh_series_lists_frame st)). Qed.

Lemma refresh_series_lists_events st :
  events (_refresh_series_lists st).2 = events st.
Proof. apply (f_equal events (refresh_series_lists_frame st)). Qed.

(** With every selection referring to a dataset, the loop returns, having
    appended the positions and the rows of the selections of each side. *)
Lemma refresh_series_loop_ok l index st :
  Forall (λ s, dataset_index s < length (datasets st)) l →
  let st' := (refresh_series_loop index l st).2 in
  (refresh_series_loop index l st).1 = inr tt ∧
  left_series_indices st' = left_series_indices st ++ positions true index l ∧
  right_series_indices st' = right_series_indices st ++ positions false index l ∧
  items (left_series_listbox st')
  = items (left_series_listbox st) ++ displays (datasets st) true l ∧
  items (right_series_listbox st')
  = items (right_series_listbox st) ++ displays (datasets st) false l.
Proof.
  revert index st. induction l as [|s l IH]; intros index st Hrefs.
  { simpl. by rewrite !app_nil_r. }
  apply Forall_cons in Hrefs as [Hs Hl].
  apply lookup_lt_is_Some_2 in Hs as [d Hd].
  simpl. unfold datasets_getitem. run. rewrite Hd. simpl.
  destruct (bool_decide (axis s = "left")) eqn:Hside; simpl.
  - match goal with |- context [refresh_series_loop _ _ ?st1] =>
      destruct (IH (S index) st1 Hl) as (-> & -> & -> & -> & ->) end.
    simpl. by rewrite <- !app_assoc.
  - match goal with |- context [refresh_series_loop _ _ ?st1] =>
      destruct (IH (S index) st1 Hl) as (-> & -> & -> & -> & ->) end.
    simpl. by rewrite <- !app_assoc.
Qed.

Lemma refresh_series_lists_ok st :
  valid_refs st →
  (_refresh_series_lists st).1 = inr tt ∧ synced (_refresh_series_lists st).2.
Proof.
  intros Hrefs. unfold synced. rewrite refresh_series_lists_series.
  unfold _refresh_series_lists. run.
  match goal with |- context [refresh_series_loop _ _ ?st1] =>
    destruct (refresh_series_loop_ok (series st) 0 st1 Hrefs)
      as (-> & -> & -> & _) end.
  done.
Qed.

(** *** The listed selections are a filter of the selection list *)

Lemma omap_positions (pre l : list SeriesSelection) (b : bool) :
  omap (λ i, (pre ++ l) !! i) (positions b (length pre) l)
  = filter (λ s, bool_decide (axis s = "left") = b) l.
Proof.
  revert pre. induction l as [|s l IH]; intros pre; [done|].
  specialize (IH (pre ++ [s])).
  rewrite <- app_assoc, length_app, Nat.add_1_r in IH. simpl in IH.
  simpl. case_bool_decide as Hs.
  - rewrite filter_cons_True by done. simpl.
    rewrite list_lookup_middle by done. simpl. f_equal. exact IH.
  - by rewrite filter_cons_False.
Qed.

Lemma selections_for_axis_synced (a : string) st :
  synced st →
  selections_for_axis a st
  = filter (λ s, bool_decide (axis s = "left") = bool_decide (a = "left"))
      (series st).
Proof.
  intros [Hleft Hright]. unfold selections_for_axis, _series_widgets.
  destruct (bool_decide (a = "left")); simpl.
  - rewrite Hleft. apply (omap_positions []).
  - rewrite Hright. apply (omap_positions []).
Qed.

(** Deleting the selection a row stands for deletes that row from the
    list of its side and leaves the list of the other side as it is. *)
Lemma positions_delete (b : bool) l (k row target : nat) :
  positions b k l !! row = Some target →
  k ≤ target ∧ target - k < length l ∧
  filter (λ s, bool_decide (axis s = "left") = b) (delete (target - k) l)
  = delete row (filter (λ s, bool_decide (axis s = "left") = b) l) ∧
  filter (λ s, bool_decide (axis s = "left") = negb b) (delete (target - k) l)
  = filter (λ s, bool_decide (axis s = "left") = negb b) l.
Proof.
  revert k row. induction l as [|s l IH]; intros k row; simpl; [done|].
  assert (∀ t, S k ≤ t → t - k = S (t - S k)) as Hsub by lia.
  case_bool_decide as Hs.
  - destruct row as [|row]; simpl.
    + intros [= <-]. rewrite Nat.sub_diag. simpl.
      rewrite filter_cons_True by done.
      rewrite filter_cons_False by (rewrite Hs; by destruct b).
      split_and!; [lia | lia | done | done].
    + intros Hrow. destruct (IH _ _ Hrow) as (Hle & Hlt & Hsame & Hother).
      rewrite (Hsub _ Hle). simpl.
      rewrite !filter_cons_True by done.
      rewrite !filter_cons_False by (rewrite Hs; by destruct b).
      simpl. rewrite Hsame, Hother. split_and!; [lia | lia | done | done].
  - intros Hrow. destruct (IH _ _ Hrow) as (Hle & Hlt & Hsame & Hother).
    rewrite (Hsub _ Hle). simpl.
    rewrite !filter_cons_False by done.
    rewrite !filter_cons_True
      by (destruct (bool_decide (axis s = "left")), b; simpl; congruence).
    rewrite Hsame, Hother. split_and!; [lia | lia | done | done].
Qed.

(** *** [_remove_series] *)

Lemma remove_series_run (a : string) st (row target : nat) :
  curselection (_series_widgets a st).1 = Some row →
  (_series_widgets a st).2 !! row = Some target →
  target < length (series st) →
  _remove_series a st
  = _refresh_series_lists (set_series (delete target (series st)) st).
Proof.
  intros Hrow Htarget Hlt. unfold _remove_series. run.
  destruct (_series_widgets a st) as [listbox index_map]. simpl in *.
  rewrite Hrow, Htarget. by rewrite decide_True.
Qed.

(** C7. When every selection refers to a loaded dataset,
    [_refresh_series_lists] returns and the selections it lists for an
    axis are the selection list filtered, in its order: those tagged
    ["left"] for the left axis, all the others for any other axis.  When in
    addition the index maps are those of the selection list and a row of
    the list of an axis is selected, [_remove_series] deletes the selection
    that row stands for from the selection list, keeping the others in
    order; that row, and nothing else, is gone from the selections listed
    for that axis, and the selections listed for the other axis are the
    same as before. *)
Theorem selections_for_axis_stable_filter st :
  valid_refs st →
  ((_refresh_series_lists st).1 = inr tt ∧
   series (_refresh_series_lists st).2 = series st ∧
   selections_for_axis "left" (_refresh_series_lists st).2
   = filter (λ s, axis s = "left") (series st) ∧
   ∀ a, a ≠ "left" →
     selections_for_axis a (_refresh_series_lists st).2
     = filter (λ s, axis s ≠ "left") (series st)) ∧
  (∀ (a : string) (row target : nat),
     synced st →
     curselection (_series_widgets a st).1 = Some row →
     (_series_widgets a st).2 !! row = Some target →
     (_remove_series a st).1 = inr tt ∧
     series (_remove_series a st).2 = delete target (series st) ∧
     selections_for_axis a (_remove_series a st).2
     = delete row (selections_for_axis a st) ∧
     (∀ b, bool_decide (b = "left") ≠ bool_decide (a = "left") →
        selections_for_axis b (_remove_series a st).2
        = selections_for_axis b st) ∧
     selections_for_axis "left" (_remove_series a st).2
     = filter (λ s, axis s = "left") (delete target (series st)) ∧
     (∀ b, b ≠ "left" →
        selections_for_axis b (_remove_series a st).2
        = filter (λ s, axis s ≠ "left") (delete target (series st)))).
Proof.
  intros Hrefs.
  assert (∀ st', valid_refs st' →
            selections_for_axis "left" (_refresh_series_lists st').2
            = filter (λ s, axis s = "left") (series st') ∧
            ∀ a, a ≠ "left" →
              selections_for_axis a (_refresh_series_lists st').2
              = filter (λ s, axis s ≠ "left") (series st')) as Hfilter.
  { intros st' Hst'. destruct (refresh_series_lists_ok st' Hst') as [_ Hsync].
    split; [|intros a Ha];
      rewrite (selections_for_axis_synced _ _ Hsync),
        refresh_series_lists_series;
      apply list_filter_iff; intros s.
    - by rewrite bool_decide_eq_true.
    - rewrite (bool_decide_eq_false_2 (a = "left")) by done.
      by rewrite bool_decide_eq_false. }
  split.
  - destruct (refresh_series_lists_ok st Hrefs) as [Hret _].
    destruct (Hfilter st Hrefs) as [Hl Hr].
    split_and!; [done | apply refresh_series_lists_series | done | done].
  - intros a row target Hsync Hrow Htarget.
    assert (positions (bool_decide (a = "left")) 0 (series st) !! row
            = Some target) as Hpos.
    { destruct Hsync as [Hleft Hright]. unfold _series_widgets in Htarget.
      destruct (bool_decide (a = "left")); simpl in Htarget; congruence. }
    destruct (positions_delete _ _ _ _ _ Hpos) as (_ & Hlt & Hsame & Hother).
    rewrite Nat.sub_0_r in Hlt, Hsame, Hother.
    rewrite (remove_series_run a st row target Hrow Htarget Hlt).
    set (st1 := set_series (delete target (series st)) st).
    assert (valid_refs st1) as Hrefs1 by by apply Forall_delete.
    destruct (refresh_series_lists_ok st1 Hrefs1) as [Hret Hsync1].
    destruct (Hfilter st1 Hrefs1) as [Hl Hr].
    split_and!; [done | apply refresh_series_lists_series | | | done | done].
    + rewrite (selections_for_axis_synced _ _ Hsync1),
        (selections_for_axis_synced _ _ Hsync), refresh_series_lists_series.
      done.
    + intros b Hb.
      rewrite (selections_for_axis_synced _ _ Hsync1),
        (selections_for_axis_synced _ _ Hsync), refresh_series_lists_series.
      simpl.
      replace (bool_decide (b = "left"))
        with (negb (bool_decide (a = "left")))
        by (destruct (bool_decide (b = "left")), (bool_decide (a = "left"));
            done).
      done.
Qed.

(** *** [_add_series] *)

Lemma cycle_next_Some (cy : Cycle) :
  palette cy ≠ [] →
  ∃ color,
    palette cy !! (taken cy mod length (palette cy)) = Some color ∧
    cycle_next cy
    = Some (color, {| palette := palette cy; taken := S (taken cy) |}).
Proof.
  intros Hne. unfold cycle_next.
  destruct (palette cy) as [|c0 p] eqn:Hp; [done|].
  destruct ((c0 :: p) !! (taken cy mod length (c0 :: p))) as [color|] eqn:Hc.
  - by exists color.
  - apply lookup_ge_None_1 in Hc.
    pose proof (Nat.mod_upper_bound (taken cy) (length (c0 :: p))) as Hlt.
    simpl in *. lia.
Qed.

(** Past its checks, [_add_series] takes a color, appends, clears the
    label entry and refreshes the two lists. *)
Lemma add_series_run (a : string) st (i : nat) d (c color : string) cy :
  add_ready st i d c →
  cycle_next (color_cycle st) = Some (color, cy) →
  _add_series a st
  = _refresh_series_lists
      (set_series_label_var ""
         (set_series
            (series st ++
             [{| dataset_index := i; column := c; axis := a;
                 label := label_for st d c; color := Some color |}])
            (set_color_cycle cy st))).
Proof.
  intros (Hi & Hd & Hc & Hcne & Hxne & Hx) Hnext.
  unfold _add_series, _current_dataset_index, datasets_getitem. run.
  rewrite Hi, Hc. simpl.
  rewrite (proj2 (truthy_true c) Hcne), (proj2 (truthy_true _) Hxne). simpl.
  rewrite Hd. simpl. rewrite bool_decide_eq_true_2 by done. simpl.
  by rewrite Hnext.
Qed.

(** C10. With a dataset and a non-empty column chosen, [_add_series]
    still refuses to add when the x column is not set (an information box)
    or is not among the columns of that dataset (an error box): it returns
    having only shown the box, so nothing is appended to the selection
    list, whether or not the chosen column is one of the dataset's. *)
Theorem add_series_needs_x_column (a : string) st (i : nat) d (c : string) :
  curselection (dataset_list st) = Some i →
  datasets st !! i = Some d →
  _current_column_name st = Some c →
  c ≠ "" →
  (x_column_var st = "" →
   _add_series a st
   = (inr tt,
      with_event (showinfo "Select X column"
                    "Choose a column to use for the X axis.") st)) ∧
  (x_column_var st ≠ "" → x_column_var st ∉ columns d →
   _add_series a st
   = (inr tt,
      with_event (showerror "Column unavailable"
                    ("Dataset '" +:+ name d +:+ "' does not contain column '"
                     +:+ x_column_var st +:+ "'.")) st)).
Proof.
  intros Hi Hd Hc Hcne.
  unfold _add_series, _current_dataset_index, datasets_getitem. run.
  rewrite Hi, Hc. simpl. rewrite (proj2 (truthy_true c) Hcne). simpl.
  split.
  - by intros ->.
  - intros Hxne Hx. rewrite (proj2 (truthy_true _) Hxne). simpl.
    rewrite Hd. simpl. by rewrite bool_decide_eq_false_2.
Qed.

(** C3, as the code has it. With a non-empty column chosen and the x
    column set, [_add_series] raises [IndexError] and changes nothing when
    the selected dataset index is out of range.  It compares neither the
    chosen column with the columns of the dataset nor the axis tag with
    ["left"] and ["right"]: when the index is in range, the x column is
    among the dataset's columns and the palette is not empty, it appends
    one selection carrying that column and that axis tag, whatever they
    are. *)
Theorem add_series_index_checked_column_and_axis_unchecked
    (a : string) st (i : nat) (c : string) :
  curselection (dataset_list st) = Some i →
  _current_column_name st = Some c →
  c ≠ "" →
  x_column_var st ≠ "" →
  match datasets st !! i with
  | None => _add_series a st = (inl IndexError, st)
  | Some d =>
      x_column_var st ∈ columns d →
      palette (color_cycle st) ≠ [] →
      ∃ color,
        series (_add_series a st).2
        = series st ++
          [{| dataset_index := i; column := c; axis := a;
              label := label_for st d c; color := Some color |}]
  end.
Proof.
  intros Hi Hc Hcne Hxne.
  destruct (datasets st !! i) as [d|] eqn:Hd.
  - intros Hx Hp. destruct (cycle_next_Some _ Hp) as (color & _ & Hnext).
    exists color.
    rewrite (add_series_run a st i d c color _) by done.
    by rewrite refresh_series_lists_series.
  - unfold _add_series, _current_dataset_index, datasets_getitem. run.
    rewrite Hi, Hc. simpl.
    rewrite (proj2 (truthy_true c) Hcne), (proj2 (truthy_true _) Hxne). simpl.
    by rewrite Hd.
Qed.

(** *** Labels and colors *)





End SelectionFacts.

(** ** The plot step *)

Section PlotFacts.
Context `{RT : Runtime}.
Implicit Types (st : App) (l : list SeriesSelection) (s : SeriesSelection).

(** *** Reading the numbers *)

Lemma get_float_from_var_run (text lbl : string) (default : option float) st :
  _get_float_from_var text lbl default st
  = if rejected text
    then (inl ValueError,
          with_event (showerror "Invalid value"
                        ("Enter a numeric value for " +:+ lbl +:+ ".")) st)
    else (inr (number_of text default), st).
Proof.
  unfold _get_float_from_var, rejected, number_of, blank. run.
  destruct (Py.truthy (Py.strip text)); simpl; [|done].
  by destruct (float_of_str (Py.strip text)).
Qed.

Lemma read_plot_numbers_run (o : PlotOptions) st :
  read_plot_numbers o st
  = match first_rejected o with
    | Some lbl =>
        (inl ValueError,
         with_event (showerror "Invalid value"
                       ("Enter a numeric value for " +:+ lbl +:+ ".")) st)
    | None => (inr (numbers o), st)
    end.
Proof.
  unfold read_plot_numbers, first_rejected, plot_fields, numbers.
  unfold mbind, M_bind, bind, mret, M_ret, ret.
  simpl.
  repeat (rewrite get_float_from_var_run;
          match goal with
          | |- context [if rejected ?text then _ else _] =>
              destruct (rejected text); simpl; [done|]
          end).
  done.
Qed.

(** Past its two guards, [_plot_series] either stops at the first
    rejected entry or goes on to build the figure. *)
Lemma plot_series_run st :
  series st ≠ [] →
  x_column_var st ≠ "" →
  _plot_series st
  = match first_rejected (options st) with
    | Some lbl =>
        (inr tt,
         with_event (showerror "Invalid value"
                       ("Enter a numeric value for " +:+ lbl +:+ ".")) st)
    | None => plot_figure (x_column_var st) (numbers (options st)) st
    end.
Proof.
  intros Hseries Hx. unfold _plot_series, except_ValueError_return.
  unfold mbind at 1, M_bind at 1, bind at 1, get at 1.
  destruct (series st) as [|s0 l0]; [done|].
  rewrite (proj2 (truthy_true _) Hx). simpl.
  rewrite read_plot_numbers_run.
  by destruct (first_rejected (options st)).
Qed.


(** The two guards at the top of [_plot_series]. *)
Lemma plot_series_no_series st :
  series st = [] →
  _plot_series st
  = (inr tt,
     with_event (showinfo "No series" "Add at least one series to plot.") st).
Proof. unfold _plot_series. run. by intros ->. Qed.

Lemma plot_series_no_x_column st :
  series st ≠ [] → x_column_var st = "" →
  _plot_series st
  = (inr tt,
     with_event (showinfo "Select X column" "Choose a column for the X axis.")
       st).
Proof.
  unfold _plot_series. run. intros Hseries ->. by destruct (series st).
Qed.

(** C4. [_plot_series] on an empty selection list only shows the "No
    series" box, and on a non-empty list with the x column unset only shows
    the "Select X column" box: apart from that one event the state is the
    same, so the figure is untouched and no redraw is requested. *)
Theorem plot_series_fails_fast st :
  (series st = [] →
   _plot_series st
   = (inr tt,
      with_event (showinfo "No series" "Add at least one series to plot.")
        st)) ∧
  (series st ≠ [] → x_column_var st = "" →
   _plot_series st
   = (inr tt,
      with_event (showinfo "Select X column"
                    "Choose a column for the X axis.") st)).
Proof.
  split; [apply plot_series_no_series | apply plot_series_no_x_column].
Qed.


(** *** Two runs of the plot step *)

Lemma plot_step_ret {A} (x : A) : plot_step (mret x).
Proof.
  intros st st' Hsans Hfig. run. split_and!; [done..|].
  exists []. by rewrite !app_nil_r.
Qed.

Lemma plot_step_raise {A} (e : exn) : plot_step (raise e : M A).
Proof.
  intros st st' Hsans Hfig. run. split_and!; [done..|].
  exists []. by rewrite !app_nil_r.
Qed.

Lemma plot_step_emit (ev : Event) : plot_step (emit ev).
Proof.
  intros st st' Hsans Hfig. run. split_and!; [done..|]. by exists [ev].
Qed.

Lemma plot_step_figure (g : Figure → Figure) :
  plot_step (modify (λ st, set_figure (g (figure st)) st)).
Proof.
  intros st st' Hsans Hfig. run. split_and!; [done | done | by rewrite Hfig|].
  exists []. by rewrite !app_nil_r.
Qed.

Lemma plot_step_on_axes (r : AxesRef) (g : Axes → Axes) :
  plot_step (on_axes r g).
Proof. apply (plot_step_figure (figure_on r g)). Qed.

Lemma plot_step_datasets_getitem (i : nat) : plot_step (datasets_getitem i).
Proof.
  intros st st' Hsans Hfig. unfold datasets_getitem. run.
  pose proof (f_equal datasets Hsans) as Hds. simpl in Hds. rewrite Hds.
  destruct (datasets st !! i); simpl; (split_and!; [done..|]);
    exists []; by rewrite !app_nil_r.
Qed.

Lemma plot_step_bind {A B} (m : M A) (k : A → M B) :
  plot_step m → (∀ x, plot_step (k x)) → plot_step (m ≫= k).
Proof.
  intros Hm Hk st st' Hsans Hfig.
  destruct (Hm st st' Hsans Hfig) as (Hr & Hs & Hf & evs & He & He').
  destruct (Hm st' st' eq_refl eq_refl) as (_ & Hs' & _).
  unfold mbind, M_bind, bind.
  destruct (m st) as [[e|x] s1], (m st') as [[e'|x'] s1'];
    simpl in *; try done.
  - injection Hr as ->. split_and!; [done..|]. by exists evs.
  - injection Hr as ->.
    destruct (Hk x s1 s1') as (Hr2 & Hs2 & Hf2 & evs2 & He2 & He2');
      [congruence | done |].
    split_and!; [done | congruence | done |].
    exists (evs ++ evs2). by rewrite He2, He2', He, He', !app_assoc.
Qed.

Lemma plot_step_data_getitem d (c : string) : plot_step (data_getitem d c).
Proof.
  unfold data_getitem.
  destruct (df_getitem _ _); [apply plot_step_ret | apply plot_step_raise].
Qed.

Lemma plot_step_series_times (x : Series) (k : option float) :
  plot_step (series_times x k).
Proof.
  unfold series_times. destruct k as [k|]; [|apply plot_step_raise].
  destruct (series_mul _ _); [apply plot_step_ret | apply plot_step_raise].
Qed.

Lemma plot_step_loop (x_column : string) (n : PlotNumbers) l loc :
  plot_step (plot_loop x_column n l loc).
Proof.
  revert loc. induction l as [|s l IH]; intros loc; simpl.
  { apply plot_step_ret. }
  apply plot_step_bind; [apply plot_step_datasets_getitem | intros d].
  destruct (negb (df_has_column (data d) (column s))).
  { apply plot_step_bind; [apply plot_step_emit | intros _; apply IH]. }
  destruct (negb (df_has_column (data d) x_column)).
  { apply plot_step_bind; [apply plot_step_emit | intros _; apply IH]. }
  apply plot_step_bind; [apply plot_step_data_getitem | intros x_data].
  apply plot_step_bind; [apply plot_step_data_getitem | intros y_data].
  apply plot_step_bind; [apply plot_step_series_times | intros x_data'].
  apply plot_step_bind; [apply plot_step_series_times | intros y_data'].
  apply plot_step_bind.
  { destruct (if bool_decide (axis s = "left") then _ else _).
    - apply plot_step_ret.
    - apply plot_step_bind; [apply (plot_step_figure figure_twinx)|].
      intros _. apply plot_step_ret. }
  intros [ax target].
  apply plot_step_bind; [apply plot_step_on_axes | intros _; apply IH].
Qed.

Lemma plot_step_get {A} (k : App → M A) :
  (∀ st st', sans_figure st' = sans_figure st → k st' = k st) →
  (∀ st0, plot_step (k st0)) →
  plot_step (get ≫= k).
Proof.
  intros Hcong Hk st st' Hsans Hfig. unfold mbind, M_bind, bind, get.
  rewrite (Hcong st st' Hsans). by apply Hk.
Qed.

Lemma plot_step_when (b : bool) (m : M unit) :
  plot_step m → plot_step (if b then m else mret tt).
Proof. intros Hm. destruct b; [done | apply plot_step_ret]. Qed.

Lemma plot_step_plot_figure (x_column : string) (n : PlotNumbers) :
  plot_step (plot_figure x_column n).
Proof.
  unfold plot_figure.
  apply plot_step_bind; [apply (plot_step_figure (λ _, figure_cleared))|].
  intros _.
  apply plot_step_bind; [apply (plot_step_figure figure_add_subplot)|].
  intros _. apply plot_step_get.
  { intros st st' Hsans.
    pose proof (f_equal series Hsans) as Hseries.
    pose proof (f_equal options Hsans) as Hoptions.
    simpl in Hseries, Hoptions. by rewrite Hseries, Hoptions. }
  intros st0.
  apply plot_step_bind; [apply plot_step_loop | intros loc].
  unfold finish_figure.
  repeat (apply plot_step_bind; [|intros _]);
    repeat first
      [ apply plot_step_on_axes
      | apply plot_step_emit
      | apply plot_step_ret
      | apply plot_step_when
      | destruct (ax_right loc) ].
Qed.

Lemma plot_figure_forgets_figure (x_column : string) (n : PlotNumbers)
    (f : Figure) st :
  plot_figure x_column n (set_figure f st) = plot_figure x_column n st.
Proof. reflexivity. Qed.

(** Two runs of [plot_figure] from states that differ at most in their
    figure and events. *)
Lemma plot_figure_twice (x_column : string) (n : PlotNumbers) st st' :
  sans_figure st' = sans_figure st →
  (plot_figure x_column n st').1 = (plot_figure x_column n st).1 ∧
  sans_figure (plot_figure x_column n st).2 = sans_figure st ∧
  figure (plot_figure x_column n st').2 = figure (plot_figure x_column n st).2 ∧
  ∃ evs, events (plot_figure x_column n st).2 = events st ++ evs ∧
         events (plot_figure x_column n st').2 = events st' ++ evs.
Proof.
  intros Hsans.
  destruct (plot_step_plot_figure x_column n st
              (set_figure (figure st) st') Hsans eq_refl)
    as (Hr & Hs & Hf & evs & He & He').
  rewrite plot_figure_forgets_figure in Hr, Hf, He'.
  split_and!; [done..|]. by exists evs.
Qed.

(** C9. Run twice in a row, [_plot_series] returns or raises the same way
    both times, leaves the same figure after the second run as after the
    first, and issues the same events again.  A run changes nothing but
    the figure and the events: the datasets, the selection list, the
    entries and options, the x column and the color cycle are as before. *)
Theorem plot_series_twice st :
  let st1 := (_plot_series st).2 in
  let st2 := (_plot_series st1).2 in
  (_plot_series st1).1 = (_plot_series st).1 ∧
  figure st2 = figure st1 ∧
  (∃ evs, events st1 = events st ++ evs ∧ events st2 = events st1 ++ evs) ∧
  sans_figure st1 = sans_figure st ∧
  datasets st1 = datasets st ∧
  series st1 = series st ∧
  options st1 = options st ∧
  x_column_var st1 = x_column_var st ∧
  color_cycle st1 = color_cycle st.
Proof.
  intros st1 st2.
  assert ((_plot_series st1).1 = (_plot_series st).1 ∧
          figure st2 = figure st1 ∧
          (∃ evs, events st1 = events st ++ evs ∧
                  events st2 = events st1 ++ evs) ∧
          sans_figure st1 = sans_figure st) as (Hr & Hf & He & Hs).
  { subst st1 st2.
    destruct (decide (series st = [])) as [Hnil|Hseries].
    { rewrite (plot_series_no_series st Hnil). simpl.
      rewrite (plot_series_no_series (with_event _ st) Hnil). simpl.
      split_and!; [done | done | | done]. by eexists. }
    destruct (decide (x_column_var st = "")) as [Hnox|Hx].
    { rewrite (plot_series_no_x_column st Hseries Hnox). simpl.
      rewrite (plot_series_no_x_column (with_event _ st) Hseries Hnox). simpl.
      split_and!; [done | done | | done]. by eexists. }
    rewrite (plot_series_run st Hseries Hx).
    destruct (first_rejected (options st)) as [lbl|] eqn:Hrej; simpl.
    { rewrite (plot_series_run (with_event _ st) Hseries Hx). simpl.
      rewrite Hrej. simpl. split_and!; [done | done | | done]. by eexists. }
    set (x := x_column_var st). set (n := numbers (options st)).
    destruct (plot_figure_twice x n st st eq_refl) as (_ & Hs & _).
    set (st1 := (plot_figure x n st).2) in *.
    assert (series st1 ≠ [] ∧ x_column_var st1 = x ∧ options st1 = options st)
      as (Hseries1 & Hx1 & Ho1).
    { pose proof (f_equal series Hs) as H1.
      pose proof (f_equal x_column_var Hs) as H2.
      pose proof (f_equal options Hs) as H3.
      simpl in H1, H2, H3. by rewrite H1, H2, H3. }
    rewrite (plot_series_run st1 Hseries1) by by rewrite Hx1.
    rewrite Ho1, Hrej, Hx1. fold n.
    destruct (plot_figure_twice x n st st1 Hs) as (Hr & _ & Hf & evs & He & He').
    split_and!; [done | done | | done].
    exists evs. split; [done|]. by rewrite He'. }
  pose proof (f_equal datasets Hs) as H1.
  pose proof (f_equal series Hs) as H2.
  pose proof (f_equal options Hs) as H3.
  pose proof (f_equal x_column_var Hs) as H4.
  pose proof (f_equal color_cycle Hs) as H5.
  simpl in H1, H2, H3, H4, H5. by split_and!.
Qed.

(** *** What the plot step draws and what it skips *)



Lemma lines_kept_bind (m : M unit) (k : M unit) :
  lines_kept m → lines_kept k → lines_kept (m;; k).
Proof.
  intros Hm Hk st. destruct (Hm st) as (Hr & He & Hs & Hl).
  unfold mbind, M_bind, bind. destruct (m st) as [[e|[]] st1]; [done|].
  simpl in *. destruct (Hk st1) as (Hr' & He' & Hs' & Hl').
  split_and!; [done | congruence | congruence |].
  intros r. by rewrite Hl', Hl.
Qed.




(** A selection whose dataset lacks its column or the x column is
    skipped: the loop shows the warning and goes on with the rest, with the
    same locals and the same figure. *)
Lemma plot_loop_skip (x_column : string) (n : PlotNumbers) s l loc st
    (w : Event) :
  dataset_index s < length (datasets st) →
  missing_warning (datasets st) x_column s = Some w →
  plot_loop x_column n (s :: l) loc st
  = plot_loop x_column n l loc (with_event w st).
Proof.
  intros Hs Hw. apply lookup_lt_is_Some_2 in Hs as [d Hd].
  unfold missing_warning in Hw. rewrite Hd in Hw. simpl in Hw.
  simpl. unfold datasets_getitem. run. rewrite Hd. simpl.
  destruct (negb (df_has_column (data d) (column s))).
  { by injection Hw as <-. }
  destruct (negb (df_has_column (data d) x_column)); [|done].
  by injection Hw as <-.
Qed.

(** A selection that can be drawn is plotted on its axes, the second
    axes being created when the selection is the first one to need them. *)
Lemma plot_loop_draw (x_column : string) (n : PlotNumbers) s l loc st
    (ln : Line2D) :
  plottable (datasets st) x_column s = true →
  line_of (datasets st) x_column n s = Some ln →
  plot_loop x_column n (s :: l) loc st
  = let target :=
      if bool_decide (axis s = "left") then LeftAxes
      else default RightAxes (ax_right loc) in
    let fig :=
      if bool_decide (axis s = "left") then figure st
      else match ax_right loc with
           | None => figure_twinx (figure st)
           | Some _ => figure st
           end in
    plot_loop x_column n l
      {| ax_right :=
           if bool_decide (axis s = "left") then ax_right loc
           else Some (default RightAxes (ax_right loc));
         legend_handles := legend_handles loc ++ [ln];
         legend_labels := legend_labels loc ++ [label s] |}
      (set_figure (figure_on target (axes_plot ln) fig) st).
Proof.
  intros Hplot Hln. unfold plottable in Hplot. unfold line_of in Hln.
  destruct (datasets st !! dataset_index s) as [d|] eqn:Hd; [|done].
  apply andb_true_iff in Hplot as [Hcol Hx]. simpl in Hln.
  destruct (df_getitem (data d) x_column) as [xd|] eqn:Hxd;
    simpl in Hln; [|done].
  destruct (df_getitem (data d) (column s)) as [yd|] eqn:Hyd;
    simpl in Hln; [|done].
  destruct (x_scale n) as [kx|] eqn:Hkx; simpl in Hln; [|done].
  destruct (series_mul xd kx) as [xd'|] eqn:Hxd'; simpl in Hln; [|done].
  simpl. unfold datasets_getitem, data_getitem, series_times, on_axes. run.
  rewrite Hd. simpl. rewrite Hcol, Hx. simpl.
  rewrite Hxd, Hyd. simpl. rewrite Hkx, Hxd'. simpl.
  destruct (bool_decide (axis s = "left")); simpl.
  - destruct (left_y_scale n) as [ky|]; simpl in Hln; [|done].
    destruct (series_mul yd ky) as [yd'|]; simpl in Hln; [|done].
    by injection Hln as <-.
  - destruct (right_y_scale n) as [ky|]; simpl in Hln; [|done].
    destruct (series_mul yd ky) as [yd'|]; simpl in Hln; [|done].
    injection Hln as <-. by destruct (ax_right loc).
Qed.

Lemma missing_warning_plottable (ds : list DataSet) (x_column : string) s :
  dataset_index s < length ds →
  if plottable ds x_column s
  then missing_warning ds x_column s = None
  else is_Some (missing_warning ds x_column s).
Proof.
  intros Hs. apply lookup_lt_is_Some_2 in Hs as [d Hd].
  unfold plottable, missing_warning. rewrite Hd. simpl.
  destruct (df_has_column (data d) (column s)),
    (df_has_column (data d) x_column); simpl; by eauto.
Qed.

Lemma drawn_lines_cons_skip (ds : list DataSet) (x_column : string)
    (n : PlotNumbers) (b : bool) s l :
  plottable ds x_column s = false →
  drawn_lines ds x_column n b (s :: l) = drawn_lines ds x_column n b l.
Proof.
  intros Hp. unfold drawn_lines. rewrite filter_cons_False; [done|].
  intros [? _]. congruence.
Qed.

Lemma drawn_lines_cons_draw (ds : list DataSet) (x_column : string)
    (n : PlotNumbers) (b : bool) s l (ln : Line2D) :
  plottable ds x_column s = true →
  line_of ds x_column n s = Some ln →
  drawn_lines ds x_column n b (s :: l)
  = if bool_decide (bool_decide (axis s = "left") = b)
    then ln :: drawn_lines ds x_column n b l
    else drawn_lines ds x_column n b l.
Proof.
  intros Hp Hln. unfold drawn_lines. case_bool_decide as Hside.
  - rewrite filter_cons_True by done. simpl. by rewrite Hln.
  - rewrite filter_cons_False; [done|]. by intros [_ ?].
Qed.


Lemma omap_Forall2 {A B} (f : A → option B) (l : list A) :
  Forall (λ x, is_Some (f x)) l →
  Forall2 (λ x y, f x = Some y) l (omap f l).
Proof.
  induction 1 as [|x l [y Hy] _ IH]; simpl; [constructor|].
  rewrite Hy. by constructor.
Qed.



End PlotFacts.

(** ** More on the loader *)

Section LoaderMore.
Context `{RT : Runtime}.
Implicit Types (self : SpaceDelimitedLoader) (fs : FileSystem).

Lemma load_loop_acc self fs files acc :
  load_loop self fs files acc
  = match load_loop self fs files [] with
    | inl e => inl e
    | inr tables => inr (acc ++ tables)
    end.
Proof.
  revert acc. induction files as [|file files IH]; intros acc; simpl.
  { by rewrite app_nil_r. }
  destruct (load_path self fs file) as [e|d]; [done|].
  rewrite (IH (acc ++ [d])), (IH [d]).
  destruct (load_loop self fs files []); [done|]. by rewrite <- app_assoc.
Qed.


(** X2. Every table [load] returns has at least one column and at least
    one row, lists the columns of its frame, and sits at a path that
    exists. *)
Theorem load_tables_not_empty self fs (files : list string)
    (tables : list DataSet) :
  (load self fs files).2 = inr tables →
  Forall (λ t, columns t ≠ [] ∧ df_rows (data t) ≠ [] ∧
               columns t = df_columns (data t) ∧
               path_exists fs (path t) = true) tables.
Proof.
  simpl. intros Hload.
  pose proof (load_loop_inv self fs files []) as Hinv.
  rewrite Hload in Hinv. destruct Hinv as (new & -> & Hnew). simpl.
  clear Hload.
  induction Hnew as [|file t files new [Ht _] _ IH]; constructor; [|done].
  unfold load_path in Ht.
  destruct (path_exists fs (resolve fs file)) eqn:Hexists; [|done].
  simpl in Ht.
  destruct (read_csv fs (resolve fs file) (encoding self)) as [|df]; [done|].
  destruct (df_empty df) eqn:Hempty; [done|]. injection Ht as <-. simpl.
  unfold df_empty in Hempty.
  by destruct (df_columns df), (df_rows df).
Qed.

(** X3. Loading two lists of paths in one call is loading the first list
    and then the second: the error of the first list if it has one, else
    the error of the second, else the tables of both, in order.  No path
    at all gives no table. *)
Theorem load_app self fs (files1 files2 : list string) :
  (load self fs []).2 = inr [] ∧
  (load self fs (files1 ++ files2)).2
  = match (load self fs files1).2 with
    | inl e => inl e
    | inr tables1 =>
        match (load self fs files2).2 with
        | inl e => inl e
        | inr tables2 => inr (tables1 ++ tables2)
        end
    end.
Proof.
  split; [done|]. simpl.
  generalize (@nil DataSet) at 1 2 as acc.
  induction files1 as [|file files1 IH]; intros acc; simpl.
  - apply load_loop_acc.
  - destruct (load_path self fs file) as [e|d]; [done|]. apply IH.
Qed.

End LoaderMore.

(** ** Opening files and picking a dataset *)

Section DatasetFacts.
Context `{RT : Runtime}.
Implicit Types (st : App).

Lemma refresh_dataset_loop_run (l : list DataSet) st :
  refresh_dataset_loop l st
  = (inr tt,
     set_dataset_list
       {| items := items (dataset_list st) ++ (name <$> l);
          curselection := curselection (dataset_list st) |} st).
Proof.
  revert st. induction l as [|d l IH]; intros st; simpl.
  { run. rewrite app_nil_r. by destruct st as [? ? ? ? ? ? ? ? ? []]. }
  run. rewrite IH. simpl. by rewrite <- app_assoc.
Qed.

Lemma column_insert_loop_run (l : list string) st :
  column_insert_loop l st
  = (inr tt,
     set_column_list
       {| items := items (column_list st) ++ l;
          curselection := curselection (column_list st) |} st).
Proof.
  revert st. induction l as [|c l IH]; intros st; simpl.
  { run. rewrite app_nil_r. by destruct st as [? ? ? ? ? ? ? ? ? ? []]. }
  run. rewrite IH. simpl. by rewrite <- app_assoc.
Qed.

Lemma refresh_dataset_list_run st :
  _refresh_dataset_list st
  = (inr tt,
     set_dataset_list
       {| items := name <$> datasets st; curselection := None |} st).
Proof. unfold _refresh_dataset_list. run. by rewrite refresh_dataset_loop_run. Qed.

(** [_on_dataset_select] with row [i] selected and dataset [d] there. *)
Lemma on_dataset_select_run st (i : nat) d :
  curselection (dataset_list st) = Some i →
  datasets st !! i = Some d →
  _on_dataset_select st
  = (inr tt,
     set_x_column_var (x_column_for (x_column_var st) d)
       (set_x_column_combo (columns d)
          (set_column_list {| items := columns d; curselection := None |}
             (set_dataset_var ("Selected: " +:+ name d) st)))).
Proof.
  intros Hi Hd. unfold _on_dataset_select, datasets_getitem. run.
  rewrite Hi. simpl. rewrite Hd. simpl.
  rewrite column_insert_loop_run. simpl. unfold x_column_for.
  destruct (bool_decide (x_column_var st ∈ columns d)); simpl.
  - by destruct st.
  - by destruct (columns d).
Qed.

Lemma x_column_for_elem (old : string) d :
  columns d ≠ [] → x_column_for old d ∈ columns d.
Proof.
  intros Hne. unfold x_column_for. case_bool_decide; [done|].
  destruct (columns d); [done | apply list_elem_of_here].
Qed.


(** [_prompt_files] when the loader returns tables. *)
Lemma prompt_files_loaded_run
    (loader : list string → DataLoaderError + list DataSet)
    (paths : list string) st d (new : list DataSet) :
  paths ≠ [] →
  loader paths = inr (d :: new) →
  _prompt_files loader paths st
  = (inr tt,
     set_x_column_var (x_column_for (x_column_var st) d)
       (set_x_column_combo (columns d)
          (set_column_list {| items := columns d; curselection := None |}
             (set_dataset_var ("Selected: " +:+ name d)
                (set_dataset_list
                   {| items := name <$> (datasets st ++ d :: new);
                      curselection := Some (length (datasets st)) |}
                   (set_datasets (datasets st ++ d :: new) st)))))).
Proof.
  intros Hpaths Hload. unfold _prompt_files.
  destruct paths as [|p paths]; [done|]. rewrite Hload.
  unfold mbind at 1, M_bind at 1, bind at 1, get at 1. cbv beta iota.
  unfold mbind at 1, M_bind at 1, bind at 1, modify at 1. cbv beta iota.
  unfold mbind at 1, M_bind at 1, bind at 1, get at 1. cbv beta iota.
  unfold mbind at 1, M_bind at 1, bind at 1, modify at 1. cbv beta iota.
  unfold mbind at 1, M_bind at 1, bind at 1.
  rewrite refresh_dataset_list_run. cbv beta iota.
  unfold mbind at 1, M_bind at 1, bind at 1, modify at 1. cbv beta iota.
  assert (length (datasets st)
          < length (name <$> datasets st ++ d :: new)) as Hlt.
  { rewrite length_fmap, length_app. simpl. lia. }
  erewrite on_dataset_select_run.
  - simpl. unfold listbox_select_only. simpl. by rewrite decide_True.
  - simpl. unfold listbox_select_only. simpl. by rewrite decide_True.
  - simpl. by rewrite lookup_app_r, Nat.sub_diag.
Qed.

(** X5. When the loader returns tables, [_prompt_files] appends them to
    the datasets, lists the names of all datasets, selects the first new
    one and shows it in the column panel: its columns are the rows of the
    column list and the choices of the x column, and the x column is kept
    when the dataset has it and is its first column otherwise.  Nothing
    else changes and no box is shown. *)
Theorem prompt_files_loaded
    (loader : list string → DataLoaderError + list DataSet)
    (paths : list string) st d (new : list DataSet) :
  paths ≠ [] →
  loader paths = inr (d :: new) →
  _prompt_files loader paths st
  = (inr tt,
     set_x_column_var (x_column_for (x_column_var st) d)
       (set_x_column_combo (columns d)
          (set_column_list {| items := columns d; curselection := None |}
             (set_dataset_var ("Selected: " +:+ name d)
                (set_dataset_list
                   {| items := name <$> (datasets st ++ d :: new);
                      curselection := Some (length (datasets st)) |}
                   (set_datasets (datasets st ++ d :: new) st)))))).
Proof. apply prompt_files_loaded_run. Qed.

(** X6. [_on_dataset_select] with no dataset selected empties the column
    panel and unsets the x column; with a row selected that has no dataset
    it raises [IndexError] and changes nothing; with dataset [d] selected
    it shows the columns of [d], with no row selected, and leaves an x
    column that is among them unless [d] has no column: the old one when
    [d] has it. *)
Theorem on_dataset_select_cases st :
  match curselection (dataset_list st) with
  | None =>
      _on_dataset_select st
      = (inr tt,
         set_x_column_var ""
           (set_x_column_combo []
              (set_column_list {| items := []; curselection := None |} st)))
  | Some i =>
      match datasets st !! i with
      | None => _on_dataset_select st = (inl IndexError, st)
      | Some d =>
          (_on_dataset_select st).1 = inr tt ∧
          column_list (_on_dataset_select st).2
          = {| items := columns d; curselection := None |} ∧
          x_column_combo (_on_dataset_select st).2 = columns d ∧
          (match columns d with
           | [] => x_column_var (_on_dataset_select st).2 = ""
           | _ => x_column_var (_on_dataset_select st).2 ∈ columns d
           end) ∧
          (if bool_decide (x_column_var st ∈ columns d)
           then x_column_var (_on_dataset_select st).2 = x_column_var st
           else x_column_var (_on_dataset_select st).2
                = default "" (head (columns d)))
      end
  end.
Proof.
  destruct (curselection (dataset_list st)) as [i|] eqn:Hi.
  - destruct (datasets st !! i) as [d|] eqn:Hd.
    + rewrite (on_dataset_select_run st i d Hi Hd). simpl.
      split_and!; [done..| |].
      * pose proof (x_column_for_elem (x_column_var st) d) as Hx.
        unfold x_column_for in *.
        destruct (columns d) eqn:Hc; [|by apply Hx].
        case_bool_decide as Hin; [by apply elem_of_nil in Hin | done].
      * unfold x_column_for. case_bool_decide; [done|]. by destruct (columns d).
    + unfold _on_dataset_select, datasets_getitem. run. rewrite Hi. simpl.
      by rewrite Hd.
  - unfold _on_dataset_select, _clear_column_panel. run. by rewrite Hi.
Qed.

End DatasetFacts.

(** ** More on the series lists *)

Section SeriesMore.
Context `{RT : Runtime}.
Implicit Types (st : App) (l : list SeriesSelection) (s : SeriesSelection).

(** The loop of [_refresh_series_lists], in one step. *)
Lemma refresh_series_loop_run l (index : nat) st :
  Forall (λ s, dataset_index s < length (datasets st)) l →
  refresh_series_loop index l st
  = (inr tt,
     set_right_series_listbox
       {| items := items (right_series_listbox st) ++
                   displays (datasets st) false l;
          curselection := curselection (right_series_listbox st) |}
       (set_left_series_listbox
          {| items := items (left_series_listbox st) ++
                      displays (datasets st) true l;
             curselection := curselection (left_series_listbox st) |}
          (set_right_series_indices
             (right_series_indices st ++ positions false index l)
             (set_left_series_indices
                (left_series_indices st ++ positions true index l) st)))).
Proof.
  revert index st. induction l as [|s l IH]; intros index st Hrefs.
  { simpl. rewrite !app_nil_r.
    by destruct st as [? ? ? ? ? ? ? ? ? ? ? ? [] []]. }
  apply Forall_cons in Hrefs as [Hs Hl].
  apply lookup_lt_is_Some_2 in Hs as [d Hd].
  simpl. unfold datasets_getitem. run. rewrite Hd. simpl.
  destruct (bool_decide (axis s = "left")) eqn:Hside; simpl;
    rewrite IH by done; simpl; by rewrite <- !app_assoc.
Qed.

(** [_refresh_series_lists] when every selection refers to a dataset. *)
Lemma refresh_series_lists_run st :
  valid_refs st →
  _refresh_series_lists st
  = (inr tt,
     set_right_series_listbox
       {| items := displays (datasets st) false (series st);
          curselection := None |}
       (set_left_series_listbox
          {| items := displays (datasets st) true (series st);
             curselection := None |}
          (set_right_series_indices (positions false 0 (series st))
             (set_left_series_indices (positions true 0 (series st)) st)))).
Proof.
  intros Hrefs. unfold _refresh_series_lists. run.
  by rewrite refresh_series_loop_run.
Qed.

Lemma displays_positions (ds : list DataSet) (b : bool)
    (pre l : list SeriesSelection) :
  Forall (λ s, dataset_index s < length ds) l →
  Forall2
    (λ (row : string) (i : nat),
       ∃ s d, (pre ++ l) !! i = Some s ∧ ds !! dataset_index s = Some d ∧
              row = series_display d s ∧
              bool_decide (axis s = "left") = b)
    (displays ds b l) (positions b (length pre) l).
Proof.
  revert pre. induction l as [|s l IH]; intros pre Hrefs; simpl.
  { constructor. }
  apply Forall_cons in Hrefs as [Hs Hl].
  specialize (IH (pre ++ [s]) Hl).
  rewrite <- app_assoc, length_app, Nat.add_1_r in IH. simpl in IH.
  case_bool_decide as Hside; [|done].
  apply lookup_lt_is_Some_2 in Hs as [d Hd]. rewrite Hd.
  constructor; [|done]. exists s, d.
  by rewrite list_lookup_middle.
Qed.

(** X7. After [_refresh_series_lists], on a state whose selections refer
    to loaded datasets, the rows of each series list and the entries of its
    index map go together: row [k] shows the label, dataset, column and
    color of the selection entry [k] points to, which is on that side; so
    a row selected in a list leads to the selection it shows. *)
Theorem refresh_series_lists_rows_aligned st :
  valid_refs st →
  Forall2
    (λ (row : string) (i : nat),
       ∃ s d, series st !! i = Some s ∧
              datasets st !! dataset_index s = Some d ∧
              row = series_display d s ∧ axis s = "left")
    (items (left_series_listbox (_refresh_series_lists st).2))
    (left_series_indices (_refresh_series_lists st).2) ∧
  Forall2
    (λ (row : string) (i : nat),
       ∃ s d, series st !! i = Some s ∧
              datasets st !! dataset_index s = Some d ∧
              row = series_display d s ∧ axis s ≠ "left")
    (items (right_series_listbox (_refresh_series_lists st).2))
    (right_series_indices (_refresh_series_lists st).2).
Proof.
  intros Hrefs. rewrite (refresh_series_lists_run st Hrefs). simpl.
  split.
  - eapply Forall2_impl; [apply (displays_positions _ true [] _ Hrefs)|].
    intros row i (s & d & Hs & Hd & -> & Hside). exists s, d.
    by apply bool_decide_eq_true in Hside.
  - eapply Forall2_impl; [apply (displays_positions _ false [] _ Hrefs)|].
    intros row i (s & d & Hs & Hd & -> & Hside). exists s, d.
    by apply bool_decide_eq_false in Hside.
Qed.

(** What two states that agree apart from the series lists share. *)
Lemma sans_series_lists_fields st st' :
  sans_series_lists st' = sans_series_lists st →
  datasets st' = datasets st ∧ series st' = series st ∧
  color_cycle st' = color_cycle st ∧ dataset_var st' = dataset_var st ∧
  x_column_var st' = x_column_var st ∧
  series_label_var st' = series_label_var st ∧ options st' = options st ∧
  dataset_list st' = dataset_list st ∧ column_list st' = column_list st ∧
  x_column_combo st' = x_column_combo st ∧ figure st' = figure st ∧
  events st' = events st.
Proof.
  intros H. split_and!.
  - exact (f_equal datasets H).
  - exact (f_equal series H).
  - exact (f_equal color_cycle H).
  - exact (f_equal dataset_var H).
  - exact (f_equal x_column_var H).
  - exact (f_equal series_label_var H).
  - exact (f_equal options H).
  - exact (f_equal dataset_list H).
  - exact (f_equal column_list H).
  - exact (f_equal x_column_combo H).
  - exact (f_equal figure H).
  - exact (f_equal events H).
Qed.

(** [_add_series], branch by branch. *)
Lemma add_series_cases (a : string) st :
  _add_series a st
  = match curselection (dataset_list st) with
    | None =>
        (inr tt,
         with_event (showinfo "Select dataset"
                       "Choose a dataset before adding a series.") st)
    | Some i =>
        if negb (Py.truthy_opt (_current_column_name st)) then
          (inr tt,
           with_event (showinfo "Select column"
                         "Choose a column before adding a series.") st)
        else if negb (Py.truthy (x_column_var st)) then
          (inr tt,
           with_event (showinfo "Select X column"
                         "Choose a column to use for the X axis.") st)
        else
          match datasets st !! i with
          | None => (inl IndexError, st)
          | Some d =>
              if negb (bool_decide (x_column_var st ∈ columns d)) then
                (inr tt,
                 with_event
                   (showerror "Column unavailable"
                      ("Dataset '" +:+ name d +:+
                       "' does not contain column '" +:+
                       x_column_var st +:+ "'.")) st)
              else
                match cycle_next (color_cycle st) with
                | None => (inl StopIteration, st)
                | Some (col, cy) =>
                    _refresh_series_lists
                      (set_series_label_var ""
                         (set_series
                            (series st ++
                             [{| dataset_index := i;
                                 column := default "" (_current_column_name st);
                                 axis := a;
                                 label :=
                                   label_for st d
                                     (default "" (_current_column_name st));
                                 color := Some col |}])
                            (set_color_cycle cy st)))
                end
          end
    end.
Proof.
  unfold _add_series, _current_dataset_index, datasets_getitem.
  unfold mbind at 1, M_bind at 1, bind at 1, get at 1. cbv beta iota.
  destruct (curselection (dataset_list st)) as [i|]; [|reflexivity].
  destruct (negb (Py.truthy_opt (_current_column_name st))); [reflexivity|].
  destruct (negb (Py.truthy (x_column_var st))); [reflexivity|].
  unfold mbind at 1, M_bind at 1, bind at 1.
  unfold mbind at 1, M_bind at 1, bind at 1, get at 1. cbv beta iota.
  destruct (datasets st !! i) as [d|]; [|reflexivity].
  unfold mret, M_ret, ret. cbv beta iota.
  destruct (negb (bool_decide (x_column_var st ∈ columns d))); [reflexivity|].
  destruct (cycle_next (color_cycle st)) as [[col cy]|]; reflexivity.
Qed.

(** X8. Whatever the state, [_add_series] either appends exactly one
    selection, tagged with the axis it was called with and colored with the
    next color of the cycle, which it takes, and empties the label entry;
    or it changes nothing but the events: then the selection list and the
    color cycle are as before, so a refused or failed call takes no color.
    The selections already there are never changed or reordered, and
    neither are the datasets, the options or the figure. *)
Theorem add_series_appends_or_keeps (a : string) st :
  (set_events [] (_add_series a st).2 = set_events [] st) ∨
  (∃ s (next_color : string),
     series (_add_series a st).2 = series st ++ [s] ∧
     axis s = a ∧ color s = Some next_color ∧
     cycle_next (color_cycle st)
     = Some (next_color, color_cycle (_add_series a st).2) ∧
     series_label_var (_add_series a st).2 = "" ∧
     events (_add_series a st).2 = events st ∧
     datasets (_add_series a st).2 = datasets st ∧
     options (_add_series a st).2 = options st ∧
     figure (_add_series a st).2 = figure st).
Proof.
  rewrite add_series_cases.
  destruct (curselection (dataset_list st)) as [i|]; [|by left].
  destruct (negb (Py.truthy_opt (_current_column_name st))); [by left|].
  destruct (negb (Py.truthy (x_column_var st))); [by left|].
  destruct (datasets st !! i) as [d|]; [|by left].
  destruct (negb (bool_decide (x_column_var st ∈ columns d))); [by left|].
  destruct (cycle_next (color_cycle st)) as [[col cy]|]; [|by left].
  right. eexists _, col.
  match goal with |- context [_refresh_series_lists ?st1] =>
    destruct (sans_series_lists_fields _ _ (refresh_series_lists_frame st1))
      as (Hds & Hse & Hcy & _ & _ & Hlv & Hop & _ & _ & _ & Hfi & Hev)
  end.
  rewrite Hds, Hse, Hcy, Hlv, Hop, Hfi, Hev. by split_and!.
Qed.

(** X9. Whatever the state, [_remove_series] either changes nothing (no
    row is selected; or the index map has no entry for the row or the
    entry is past the end of the selection list, and [IndexError] is
    raised), or deletes exactly the selection the selected row maps to.
    It never changes the color cycle (the color of a removed selection is
    not given out again), the datasets, the events or the figure. *)
Theorem remove_series_removes_one_or_nothing (a : string) st :
  (_remove_series a st).2 = st ∨
  (∃ row target : nat,
     curselection (_series_widgets a st).1 = Some row ∧
     (_series_widgets a st).2 !! row = Some target ∧
     series (_remove_series a st).2 = delete target (series st) ∧
     length (series (_remove_series a st).2) + 1 = length (series st) ∧
     color_cycle (_remove_series a st).2 = color_cycle st ∧
     datasets (_remove_series a st).2 = datasets st ∧
     events (_remove_series a st).2 = events st ∧
     figure (_remove_series a st).2 = figure st).
Proof.
  destruct (curselection (_series_widgets a st).1) as [row|] eqn:Hrow;
    [|left; unfold _remove_series; run;
      destruct (_series_widgets a st); simpl in *; by rewrite Hrow].
  destruct ((_series_widgets a st).2 !! row) as [target|] eqn:Htarget;
    [|left; unfold _remove_series; run;
      destruct (_series_widgets a st); simpl in *; by rewrite Hrow, Htarget].
  destruct (decide (target < length (series st))) as [Hlt|Hge];
    [|left; unfold _remove_series; run;
      destruct (_series_widgets a st); simpl in *; rewrite Hrow, Htarget;
      by rewrite decide_False].
  right. exists row, target.
  rewrite (remove_series_run a st row target Hrow Htarget Hlt).
  match goal with |- context [_refresh_series_lists ?st1] =>
    destruct (sans_series_lists_fields _ _ (refresh_series_lists_frame st1))
      as (Hds & Hse & Hcy & _ & _ & _ & _ & _ & _ & _ & Hfi & Hev)
  end.
  rewrite Hds, Hse, Hcy, Hfi, Hev. simpl.
  split_and!; [done..| |done|done|done|done].
  rewrite length_delete by by apply lookup_lt_is_Some_2. lia.
Qed.

(** *** [_update_series_color] *)

Lemma update_series_color_run (a : string) (hex : option string) st
    (row target : nat) old :
  curselection (_series_widgets a st).1 = Some row →
  (_series_widgets a st).2 !! row = Some target →
  series st !! target = Some old →
  _update_series_color a hex st
  = if Py.truthy_opt hex
    then _refresh_series_lists
           (set_series (<[target := recolored hex old]> (series st)) st)
    else (inr tt, st).
Proof.
  intros Hrow Htarget Hold. unfold _update_series_color, series_getitem.
  unfold mbind at 1, M_bind at 1, bind at 1, get at 1. cbv beta iota.
  destruct (_series_widgets a st) as [listbox index_map]. simpl in Hrow, Htarget.
  rewrite Hrow, Htarget.
  unfold mbind at 1, M_bind at 1, bind at 1.
  unfold mbind at 1, M_bind at 1, bind at 1, get at 1. cbv beta iota.
  rewrite Hold. unfold mret, M_ret, ret. cbv beta iota.
  by destruct (Py.truthy_opt hex).
Qed.

Lemma positions_insert (b : bool) l (k target : nat) s' old :
  l !! target = Some old →
  axis s' = axis old →
  positions b k (<[target := s']> l) = positions b k l.
Proof.
  revert k target. induction l as [|s l IH]; intros k target; [done|].
  destruct target as [|target]; simpl.
  - intros [= ->] ->. done.
  - intros Hold Haxis. by rewrite (IH (S k) target Hold Haxis).
Qed.

(** Replacing the selection a row stands for by one of the same side
    replaces that row in the list of its side and leaves the list of the
    other side as it is. *)
Lemma positions_insert_filter (b : bool) l (k row target : nat) s' :
  positions b k l !! row = Some target →
  bool_decide (axis s' = "left") = b →
  filter (λ s, bool_decide (axis s = "left") = b) (<[target - k := s']> l)
  = <[row := s']> (filter (λ s, bool_decide (axis s = "left") = b) l) ∧
  filter (λ s, bool_decide (axis s = "left") = negb b) (<[target - k := s']> l)
  = filter (λ s, bool_decide (axis s = "left") = negb b) l.
Proof.
  intros Hpos Hside. revert k row Hpos.
  induction l as [|s l IH]; intros k row; simpl; [done|].
  assert (∀ t, S k ≤ t → t - k = S (t - S k)) as Hsub by lia.
  destruct (decide (bool_decide (axis s = "left") = b)) as [Hs|Hs];
    [rewrite (bool_decide_eq_true_2 _ Hs)
    |rewrite (bool_decide_eq_false_2 _ Hs)].
  - destruct row as [|row]; simpl.
    + intros [= <-]. rewrite Nat.sub_diag. simpl.
      rewrite !(filter_cons_True (λ s, bool_decide (axis s = "left") = b))
        by done.
      rewrite !filter_cons_False by (rewrite ?Hs, ?Hside; by destruct b).
      done.
    + intros Hrow.
      destruct (positions_delete b l (S k) row target Hrow) as (Hle & _).
      destruct (IH _ _ Hrow) as (Hsame & Hother).
      rewrite (Hsub _ Hle). simpl.
      rewrite !(filter_cons_True (λ s, bool_decide (axis s = "left") = b))
        by done.
      rewrite !filter_cons_False by (rewrite Hs; by destruct b).
      simpl. by rewrite Hsame, Hother.
  - intros Hrow.
    destruct (positions_delete b l (S k) row target Hrow) as (Hle & _).
    destruct (IH _ _ Hrow) as (Hsame & Hother).
    rewrite (Hsub _ Hle). simpl.
    rewrite !(filter_cons_False (λ s, bool_decide (axis s = "left") = b))
      by done.
    rewrite !filter_cons_True
      by (destruct (bool_decide (axis s = "left")), b; simpl; congruence).
    by rewrite Hsame, Hother.
Qed.

Lemma positions_lookup (b : bool) l (k row target : nat) :
  positions b k l !! row = Some target →
  ∃ s, l !! (target - k) = Some s ∧ bool_decide (axis s = "left") = b.
Proof.
  revert k row. induction l as [|s l IH]; intros k row; simpl; [done|].
  assert (∀ t, S k ≤ t → t - k = S (t - S k)) as Hsub by lia.
  case_bool_decide as Hs.
  - destruct row as [|row]; simpl.
    + intros [= <-]. rewrite Nat.sub_diag. by exists s.
    + intros Hrow.
      destruct (positions_delete b l (S k) row target Hrow) as (Hle & _).
      rewrite (Hsub _ Hle). by eapply IH.
  - intros Hrow.
    destruct (positions_delete b l (S k) row target Hrow) as (Hle & _).
    rewrite (Hsub _ Hle). by eapply IH.
Qed.

(** X10. On a state whose selections refer to loaded datasets and whose
    index maps are those of the selection list, with a row of the list of
    an axis selected: when the color dialog gives a color,
    [_update_series_color] returns having replaced the selection that row
    stands for by one with that color and the same dataset, column, axis
    and label; the selection keeps its place in the selection list and its
    row, the other selections and the color cycle are as before.  When the
    dialog is cancelled nothing changes. *)
Theorem update_series_color_only_color (a : string) (hex : option string) st
    (row target : nat) :
  valid_refs st →
  synced st →
  curselection (_series_widgets a st).1 = Some row →
  (_series_widgets a st).2 !! row = Some target →
  if Py.truthy_opt hex then
    ∃ old,
      series st !! target = Some old ∧
      (_update_series_color a hex st).1 = inr tt ∧
      series (_update_series_color a hex st).2
      = <[target := recolored hex old]> (series st) ∧
      selections_for_axis a (_update_series_color a hex st).2
      = <[row := recolored hex old]> (selections_for_axis a st) ∧
      (∀ b, bool_decide (b = "left") ≠ bool_decide (a = "left") →
         selections_for_axis b (_update_series_color a hex st).2
         = selections_for_axis b st) ∧
      color_cycle (_update_series_color a hex st).2 = color_cycle st
  else _update_series_color a hex st = (inr tt, st).
Proof.
  intros Hrefs Hsync Hrow Htarget.
  assert (positions (bool_decide (a = "left")) 0 (series st) !! row
          = Some target) as Hpos.
  { destruct Hsync as [Hleft Hright]. unfold _series_widgets in Htarget.
    destruct (bool_decide (a = "left")); simpl in Htarget; congruence. }
  destruct (positions_lookup _ _ _ _ _ Hpos) as (old & Hold & Hside).
  rewrite Nat.sub_0_r in Hold.
  rewrite (update_series_color_run a hex st row target old Hrow Htarget Hold).
  destruct (Py.truthy_opt hex); [|done].
  exists old. split; [done|].
  set (st1 := set_series (<[target := recolored hex old]> (series st)) st).
  assert (valid_refs st1) as Hrefs1.
  { unfold valid_refs in *. unfold st1. simpl. apply Forall_insert; [done|].
    simpl. rewrite Forall_forall in Hrefs. apply Hrefs.
    by eapply list_elem_of_lookup_2. }
  destruct (refresh_series_lists_ok st1 Hrefs1) as [Hret Hsync1].
  destruct (sans_series_lists_fields _ _ (refresh_series_lists_frame st1))
    as (_ & Hse & Hcy & _).
  destruct (positions_insert_filter _ (series st) 0 row target
              (recolored hex old) Hpos Hside) as [Hsame Hother].
  rewrite Nat.sub_0_r in Hsame, Hother.
  split_and!; [done | by rewrite Hse | | | by rewrite Hcy].
  - rewrite (selections_for_axis_synced _ _ Hsync1),
      (selections_for_axis_synced _ _ Hsync), Hse. exact Hsame.
  - intros b Hb.
    rewrite (selections_for_axis_synced _ _ Hsync1),
      (selections_for_axis_synced _ _ Hsync), Hse.
    replace (bool_decide (b = "left"))
      with (negb (bool_decide (a = "left")))
      by (destruct (bool_decide (b = "left")), (bool_decide (a = "left"));
          done).
    exact Hother.
Qed.

(** *** Adding and removing *)

Lemma positions_app (b : bool) (l1 l2 : list SeriesSelection) (k : nat) :
  positions b k (l1 ++ l2)
  = positions b k l1 ++ positions b (k + length l1) l2.
Proof.
  revert k. induction l1 as [|s l1 IH]; intros k; simpl.
  { by rewrite Nat.add_0_r. }
  rewrite IH, Nat.add_succ_r. by case_bool_decide.
Qed.

Lemma displays_length (ds : list DataSet) (b : bool) l :
  Forall (λ s, dataset_index s < length ds) l →
  length (displays ds b l) = length (positions b 0 l).
Proof.
  intros Hrefs. eapply Forall2_length.
  apply (displays_positions ds b [] l Hrefs).
Qed.

(** X11. Adding a selection and then removing the last row of the list of
    its axis gives back the selection list as it was; the color taken for
    it is not given back, the cycle stays one step further. *)
Theorem add_then_remove_restores (a : string) st (i : nat) d (c : string) :
  add_ready st i d c →
  valid_refs st →
  palette (color_cycle st) ≠ [] →
  let st1 := (_add_series a st).2 in
  let last := length (_series_widgets a st1).2 - 1 in
  let st2 := pick_series_row a last st1 in
  (_remove_series a st2).1 = inr tt ∧
  series (_remove_series a st2).2 = series st ∧
  taken (color_cycle (_remove_series a st2).2) = S (taken (color_cycle st)).
Proof.
  intros Hready Hrefs Hp.
  destruct (cycle_next_Some _ Hp) as (col & _ & Hnext).
  rewrite (add_series_run a st i d c col _ Hready Hnext).
  set (s := {| dataset_index := i; column := c; axis := a;
               label := label_for st d c; color := Some col |}).
  match goal with |- context [_refresh_series_lists ?st0] =>
    set (st1' := st0) end.
  assert (valid_refs st1') as Hrefs1.
  { unfold valid_refs, st1'. simpl. apply Forall_app. split; [done|].
    apply Forall_singleton. simpl.
    destruct Hready as (_ & Hd & _). by eapply lookup_lt_Some. }
  rewrite (refresh_series_lists_run st1' Hrefs1).
  cbv zeta. cbn [snd].
  assert (series st1' = series st ++ [s]) as Hseries by done.
  assert (datasets st1' = datasets st) as Hdatasets by done.
  rewrite Hseries, Hdatasets.
  set (n := length (positions (bool_decide (a = "left")) 0 (series st))).
  assert (positions (bool_decide (a = "left")) 0 (series st ++ [s])
          = positions (bool_decide (a = "left")) 0 (series st)
            ++ [length (series st)]) as Hpos.
  { rewrite positions_app. simpl.
    by destruct (bool_decide (a = "left")). }
  assert (length (displays (datasets st) (bool_decide (a = "left"))
                    (series st ++ [s])) = S n) as Hrows.
  { rewrite displays_length by (by rewrite <- Hseries, <- Hdatasets).
    rewrite Hpos, length_app. simpl. unfold n. lia. }
  match goal with |- context [pick_series_row a ?k ?st1] =>
    set (st2 := pick_series_row a k st1) end.
  assert (curselection (_series_widgets a st2).1 = Some n ∧
          (_series_widgets a st2).2 !! n = Some (length (series st)) ∧
          series st2 = series st ++ [s] ∧ datasets st2 = datasets st ∧
          color_cycle st2
          = {| palette := palette (color_cycle st);
               taken := S (taken (color_cycle st)) |})
    as (Hrow & Htarget & Hseries2 & Hdatasets2 & Hcycle2).
  { unfold st2, pick_series_row, _series_widgets, listbox_select_only.
    destruct (bool_decide (a = "left")) eqn:Ha; simpl in *;
      rewrite Hpos, Hrows, length_app, Nat.add_sub; simpl;
      rewrite decide_True by (fold n; lia); fold n;
      (split_and!; [done| |done|done|done]);
      by rewrite lookup_app_r, Nat.sub_diag. }
  assert (length (series st) < length (series st2)) as Hlt.
  { rewrite Hseries2, length_app. simpl. lia. }
  rewrite (remove_series_run a st2 n _ Hrow Htarget Hlt).
  set (st3 := set_series (delete (length (series st)) (series st2)) st2).
  assert (series st3 = series st) as Hseries3.
  { unfold st3. simpl. rewrite Hseries2.
    rewrite delete_middle. by rewrite app_nil_r. }
  assert (valid_refs st3) as Hrefs3.
  { unfold valid_refs. rewrite Hseries3.
    replace (datasets st3) with (datasets st) by (by rewrite <- Hdatasets2).
    done. }
  destruct (refresh_series_lists_ok st3 Hrefs3) as [Hret _].
  destruct (sans_series_lists_fields _ _ (refresh_series_lists_frame st3))
    as (_ & Hse & Hcy & _).
  split_and!; [done | by rewrite Hse |].
  rewrite Hcy. replace (color_cycle st3) with (color_cycle st2) by done.
  by rewrite Hcycle2.
Qed.

End SeriesMore.

(** ** The session stays consistent *)

Section ConsistencyFacts.
Context `{RT : Runtime}.
Implicit Types (st : App) (l : list SeriesSelection) (s : SeriesSelection).

(** Consistency is a matter of the datasets, the selections and the
    widgets showing them. *)
Lemma consistent_same st st' :
  datasets st' = datasets st → series st' = series st →
  dataset_list st' = dataset_list st → column_list st' = column_list st →
  x_column_combo st' = x_column_combo st → x_column_var st' = x_column_var st →
  left_series_indices st' = left_series_indices st →
  right_series_indices st' = right_series_indices st →
  left_series_listbox st' = left_series_listbox st →
  right_series_listbox st' = right_series_listbox st →
  consistent st → consistent st'.
Proof.
  intros H1 H2 H3 H4 H5 H6 H7 H8 H9 H10.
  unfold consistent, valid_refs, series_lists_ok, synced, dataset_list_ok,
    column_panel_ok.
  by rewrite H1, H2, H3, H4, H5, H6, H7, H8, H9, H10.
Qed.

Lemma consistent_sans_figure st st' :
  sans_figure st' = sans_figure st → consistent st → consistent st'.
Proof.
  intros H. apply consistent_same.
  - exact (f_equal datasets H).
  - exact (f_equal series H).
  - exact (f_equal dataset_list H).
  - exact (f_equal column_list H).
  - exact (f_equal x_column_combo H).
  - exact (f_equal x_column_var H).
  - exact (f_equal left_series_indices H).
  - exact (f_equal right_series_indices H).
  - exact (f_equal left_series_listbox H).
  - exact (f_equal right_series_listbox H).
Qed.

Lemma displays_app_datasets (ds new : list DataSet) (b : bool) l :
  Forall (λ s, dataset_index s < length ds) l →
  displays (ds ++ new) b l = displays ds b l.
Proof.
  induction 1 as [|s l Hs _ IH]; simpl; [done|].
  rewrite IH. by rewrite lookup_app_l.
Qed.

Lemma on_dataset_select_none st :
  curselection (dataset_list st) = None →
  _on_dataset_select st
  = (inr tt,
     set_x_column_var ""
       (set_x_column_combo []
          (set_column_list {| items := []; curselection := None |} st))).
Proof.
  intros Hi. unfold _on_dataset_select, _clear_column_panel. run.
  rewrite Hi. simpl. by destruct st.
Qed.

(** After a refresh the series lists are in order. *)
Lemma series_lists_ok_refreshed st :
  valid_refs st →
  (_refresh_series_lists st).1 = inr tt ∧
  series_lists_ok (_refresh_series_lists st).2.
Proof.
  intros Hrefs. rewrite (refresh_series_lists_run st Hrefs).
  split; [done|]. by split_and!.
Qed.

Lemma consistent_refreshed st :
  valid_refs st → dataset_list_ok st → column_panel_ok st →
  (_refresh_series_lists st).1 = inr tt ∧
  consistent (_refresh_series_lists st).2.
Proof.
  intros Hrefs Hds Hcp. rewrite (refresh_series_lists_run st Hrefs).
  split; [done|]. by split_and!.
Qed.

Lemma init_consistent (rc_colors : option (list string)) :
  consistent (App_init rc_colors).
Proof.
  unfold consistent, valid_refs, series_lists_ok, synced, dataset_list_ok,
    column_panel_ok. simpl. split_and!; first [done | constructor].
Qed.

Lemma prompt_files_consistent
    (loader : list string → DataLoaderError + list DataSet)
    (paths : list string) st :
  consistent st →
  (_prompt_files loader paths st).1 = inr tt ∧
  consistent (_prompt_files loader paths st).2.
Proof.
  intros (Hrefs & ([Hsl Hsr] & Hleft & Hright & Hlsel & Hrsel)
          & [Hitems Hsel] & Hcp).
  destruct paths as [|p paths]; [by split|].
  destruct (loader (p :: paths)) as [exc|[|d new]] eqn:Hload.
  + unfold _prompt_files. rewrite Hload. by split.
  + unfold _prompt_files. rewrite Hload. by split.
  + rewrite (prompt_files_loaded_run loader (p :: paths) st d new) by done.
    split; [done|].
    unfold consistent, valid_refs, series_lists_ok, synced, dataset_list_ok,
      column_panel_ok. simpl.
    rewrite !displays_app_datasets by done.
    split_and!; try done.
    * eapply Forall_impl; [exact Hrefs|]. intros s Hs. simpl in *.
      rewrite length_app. lia.
    * intros i [= <-]. rewrite length_app. simpl. lia.
    * exists d. rewrite lookup_app_r by done. rewrite Nat.sub_diag.
      split_and!; [done..|]. apply x_column_for_elem.
Qed.

Lemma on_dataset_select_consistent (row : nat) st :
  consistent st →
  (_on_dataset_select
     (set_dataset_list (listbox_select_only row (dataset_list st)) st)).1
  = inr tt ∧
  consistent
    (_on_dataset_select
       (set_dataset_list (listbox_select_only row (dataset_list st)) st)).2.
Proof.
  intros (Hrefs & Hlists & [Hitems Hsel] & Hcp).
  set (st1 := set_dataset_list
                (listbox_select_only row (dataset_list st)) st).
  assert (consistent_but_panel :
            valid_refs st1 ∧ series_lists_ok st1 ∧
            items (dataset_list st1) = name <$> datasets st1) by done.
  assert (Hrow : ∀ i, curselection (dataset_list st1) = Some i →
                      i < length (datasets st1)).
  { intros i. unfold st1, listbox_select_only. simpl.
    case_decide as Hlt; [|done]. intros [= <-].
    by rewrite Hitems, length_fmap in Hlt. }
  clearbody st1.
  destruct consistent_but_panel
    as (Hrefs1 & ([Hsl Hsr] & Hleft & Hright & Hlsel & Hrsel) & Hit1).
  destruct (curselection (dataset_list st1)) as [i|] eqn:Hi.
  + specialize (Hrow i eq_refl).
    apply lookup_lt_is_Some_2 in Hrow as Hd. destruct Hd as [d Hd].
    rewrite (on_dataset_select_run st1 i d Hi Hd). split; [done|].
    unfold consistent, valid_refs, series_lists_ok, synced, dataset_list_ok,
      column_panel_ok. cbn [snd]. simpl. rewrite Hi.
    split_and!; try done.
    * by intros i' [= <-].
    * exists d. split_and!; [done..|]. apply x_column_for_elem.
  + rewrite (on_dataset_select_none st1 Hi). split; [done|].
    unfold consistent, valid_refs, series_lists_ok, synced, dataset_list_ok,
      column_panel_ok. cbn [snd]. simpl. rewrite Hi. by split_and!.
Qed.

(** X12. A fresh application is consistent, and opening files and
    picking a dataset keep it so: after [_prompt_files], whatever the
    loader returns, and after [_on_dataset_select], whatever row of the
    dataset list is selected, the handler has returned normally, every
    selection refers to a loaded dataset, the dataset list shows the names
    of the datasets, the column list and the x column choices are the
    columns of the selected dataset and the x column is one of them. *)
Theorem dataset_handlers_keep_consistent
    (rc_colors : option (list string))
    (loader : list string → DataLoaderError + list DataSet)
    (paths : list string) (row : nat) st :
  consistent (App_init rc_colors) ∧
  (consistent st →
   (_prompt_files loader paths st).1 = inr tt ∧
   consistent (_prompt_files loader paths st).2) ∧
  (consistent st →
   (_on_dataset_select
      (set_dataset_list (listbox_select_only row (dataset_list st)) st)).1
   = inr tt ∧
   consistent
     (_on_dataset_select
        (set_dataset_list (listbox_select_only row (dataset_list st)) st)).2).
Proof.
  split_and!.
  - apply init_consistent.
  - apply prompt_files_consistent.
  - apply on_dataset_select_consistent.
Qed.

Lemma series_widgets_row (a : string) st (row : nat) :
  series_lists_ok st →
  curselection (_series_widgets a st).1 = Some row →
  ∃ target s,
    (_series_widgets a st).2 !! row = Some target ∧
    series st !! target = Some s.
Proof.
  intros ([Hsl Hsr] & _ & _ & Hlsel & Hrsel) Hrow.
  unfold _series_widgets in *.
  destruct (bool_decide (a = "left")); cbn [fst snd] in *.
  - apply Hlsel, lookup_lt_is_Some_2 in Hrow as [target Ht].
    exists target. rewrite Hsl in Ht.
    destruct (positions_lookup _ _ _ _ _ Ht) as (s & Hs & _).
    rewrite Nat.sub_0_r in Hs. rewrite Hsl. by exists s.
  - apply Hrsel, lookup_lt_is_Some_2 in Hrow as [target Ht].
    exists target. rewrite Hsr in Ht.
    destruct (positions_lookup _ _ _ _ _ Ht) as (s & Hs & _).
    rewrite Nat.sub_0_r in Hs. rewrite Hsr. by exists s.
Qed.

Lemma add_series_consistent (a : string) st :
  consistent st →
  ((_add_series a st).1 = inr tt ∨
   (_add_series a st = (inl StopIteration, st) ∧
    palette (color_cycle st) = [])) ∧
  consistent (_add_series a st).2.
Proof.
  intros Hc. rewrite add_series_cases.
  assert (∀ ev, consistent (with_event ev st)) as Hev.
  { intros ev. by apply (consistent_same st). }
  destruct (curselection (dataset_list st)) as [i|] eqn:Hi;
    [|split; [by left | apply Hev]].
  destruct (negb (Py.truthy_opt (_current_column_name st)));
    [split; [by left | apply Hev]|].
  destruct (negb (Py.truthy (x_column_var st)));
    [split; [by left | apply Hev]|].
  destruct Hc as (Hrefs & Hlists & [Hitems Hsel] & Hcp).
  pose proof (Hsel i Hi) as Hlt.
  apply lookup_lt_is_Some_2 in Hlt as Hd. destruct Hd as [d Hd]. rewrite Hd.
  destruct (negb (bool_decide (x_column_var st ∈ columns d)));
    [split; [by left | apply Hev]|].
  destruct (cycle_next (color_cycle st)) as [[col cy]|] eqn:Hcy.
  - match goal with |- context [_refresh_series_lists ?st1] =>
      destruct (consistent_refreshed st1) as [Hr Hc1]
    end.
    + unfold valid_refs. simpl. apply Forall_app. split; [exact Hrefs|].
      by repeat constructor.
    + done.
    + done.
    + split; [by left | exact Hc1].
  - split; [|done]. right. split; [done|].
    unfold cycle_next in Hcy. destruct (palette (color_cycle st)) eqn:Hp; [done|].
    exfalso. destruct (cycle_next_Some (color_cycle st)) as (c & _ & Hn);
      [by rewrite Hp|].
    unfold cycle_next in Hn. rewrite Hp in Hn. congruence.
Qed.

Lemma remove_series_consistent (a : string) st :
  consistent st →
  (_remove_series a st).1 = inr tt ∧ consistent (_remove_series a st).2.
Proof.
  intros Hc.
  destruct (curselection (_series_widgets a st).1) as [row|] eqn:Hrow.
  - destruct Hc as (Hrefs & Hlists & Hds & Hcp).
    destruct (series_widgets_row a st row Hlists Hrow)
      as (target & s & Ht & Hs).
    rewrite (remove_series_run a st row target Hrow Ht)
      by by eapply lookup_lt_Some.
    apply consistent_refreshed; [|done..].
    unfold valid_refs. simpl. by apply Forall_delete.
  - unfold _remove_series. run.
    destruct (_series_widgets a st); simpl in *. by rewrite Hrow.
Qed.

Lemma update_series_color_consistent (a : string) (hex : option string) st :
  consistent st →
  (_update_series_color a hex st).1 = inr tt ∧
  consistent (_update_series_color a hex st).2.
Proof.
  intros Hc.
  destruct (curselection (_series_widgets a st).1) as [row|] eqn:Hrow.
  - destruct Hc as (Hrefs & Hlists & Hds & Hcp).
    destruct (series_widgets_row a st row Hlists Hrow)
      as (target & s & Ht & Hs).
    rewrite (update_series_color_run a hex st row target s Hrow Ht Hs).
    destruct (Py.truthy_opt hex); [|done].
    apply consistent_refreshed; [|done..].
    unfold valid_refs. simpl. apply Forall_insert; [exact Hrefs|].
    unfold valid_refs in Hrefs. rewrite Forall_lookup in Hrefs.
    exact (Hrefs target s Hs).
  - unfold _update_series_color. run.
    destruct (_series_widgets a st); simpl in *. by rewrite Hrow.
Qed.

Lemma pick_series_row_consistent (a : string) (row : nat) st :
  consistent st → consistent (pick_series_row a row st).
Proof.
  intros (Hrefs & ([Hsl Hsr] & Hleft & Hright & Hlsel & Hrsel) & [Hit Hsel]
          & [Hpanel Hcol]).
  unfold pick_series_row, consistent, valid_refs, series_lists_ok, synced,
    dataset_list_ok, column_panel_ok, listbox_select_only.
  destruct (bool_decide (a = "left")); simpl; split_and!; try done.
  - intros r. case_decide as Hlt; [|done]. intros [= <-].
    by rewrite Hleft, displays_length, <- Hsl in Hlt.
  - intros r. case_decide as Hlt; [|done]. intros [= <-].
    by rewrite Hright, displays_length, <- Hsr in Hlt.
Qed.


End ConsistencyFacts.

(** ** The selections name columns of their datasets *)

Section ColumnFacts.
Context `{RT : Runtime}.
Implicit Types (st : App) (l : list SeriesSelection) (s : SeriesSelection).

Lemma columns_ok_same st st' :
  datasets st' = datasets st → series st' = series st →
  columns_ok st → columns_ok st'.
Proof. unfold columns_ok. by intros -> ->. Qed.

Lemma columns_ok_refreshed st :
  columns_ok st → columns_ok (_refresh_series_lists st).2.
Proof.
  apply columns_ok_same;
    [apply refresh_series_lists_datasets | apply refresh_series_lists_series].
Qed.

(** In a consistent session the selected column is a column of the
    selected dataset. *)
Lemma current_column_elem st (i : nat) d (c : string) :
  column_panel_ok st →
  curselection (dataset_list st) = Some i →
  datasets st !! i = Some d →
  _current_column_name st = Some c →
  c ∈ columns d.
Proof.
  intros [Hpanel Hcol] Hi Hd Hc. rewrite Hi in Hpanel.
  destruct Hpanel as (d' & Hd' & Hitems & _).
  assert (d' = d) as -> by congruence.
  unfold _current_column_name in Hc.
  destruct (curselection (column_list st)) as [j|] eqn:Hj; [|done].
  simpl in Hc. injection Hc as <-.
  specialize (Hcol j eq_refl). apply lookup_lt_is_Some_2 in Hcol as [c Hc].
  unfold listbox_get. rewrite Hc. simpl. rewrite <- Hitems.
  by eapply list_elem_of_lookup_2.
Qed.

Lemma add_series_columns_ok (a : string) st :
  consistent st → columns_ok st → columns_ok (_add_series a st).2.
Proof.
  intros (Hrefs & Hlists & [Hitems Hsel] & Hcp) Hcols.
  rewrite add_series_cases.
  destruct (curselection (dataset_list st)) as [i|] eqn:Hi; [|done].
  destruct (_current_column_name st) as [c|] eqn:Hc; [|done].
  destruct (negb (Py.truthy_opt (Some c))); [done|].
  destruct (negb (Py.truthy (x_column_var st))); [done|].
  destruct (datasets st !! i) as [d|] eqn:Hd; [|done].
  destruct (negb (bool_decide (x_column_var st ∈ columns d))); [done|].
  destruct (cycle_next (color_cycle st)) as [[col cy]|]; [|done].
  apply columns_ok_refreshed. unfold columns_ok. simpl.
  apply Forall_app. split; [exact Hcols|].
  repeat constructor. exists d. simpl. split; [done|].
  by apply (current_column_elem st i).
Qed.

Lemma remove_series_columns_ok (a : string) st :
  columns_ok st → columns_ok (_remove_series a st).2.
Proof.
  intros Hcols. unfold _remove_series.
  unfold mbind at 1, M_bind at 1, bind at 1, get at 1. cbv beta iota.
  destruct (_series_widgets a st) as [listbox index_map].
  destruct (curselection listbox) as [row|]; [|done].
  destruct (index_map !! row) as [target|]; [|done].
  case_decide; [|done].
  unfold mbind at 1, M_bind at 1, bind at 1, modify at 1. cbv beta iota.
  apply columns_ok_refreshed. unfold columns_ok. simpl.
  by apply Forall_delete.
Qed.

Lemma update_series_color_columns_ok (a : string) (hex : option string) st :
  columns_ok st → columns_ok (_update_series_color a hex st).2.
Proof.
  intros Hcols. unfold _update_series_color, series_getitem.
  unfold mbind at 1, M_bind at 1, bind at 1, get at 1. cbv beta iota.
  destruct (_series_widgets a st) as [listbox index_map].
  destruct (curselection listbox) as [row|]; [|done].
  destruct (index_map !! row) as [target|]; [|done].
  unfold mbind at 1, M_bind at 1, bind at 1.
  unfold mbind at 1, M_bind at 1, bind at 1, get at 1. cbv beta iota.
  destruct (series st !! target) as [old|] eqn:Hold; [|done].
  unfold mret, M_ret, ret. cbv beta iota.
  destruct (Py.truthy_opt hex); [|done].
  unfold mbind at 1, M_bind at 1, bind at 1, modify at 1. cbv beta iota.
  apply columns_ok_refreshed. unfold columns_ok. simpl.
  apply Forall_insert; [exact Hcols|].
  unfold columns_ok in Hcols. rewrite Forall_lookup in Hcols.
  exact (Hcols target old Hold).
Qed.

Lemma prompt_files_columns_ok
    (loader : list string → DataLoaderError + list DataSet)
    (paths : list string) st :
  columns_ok st → columns_ok (_prompt_files loader paths st).2.
Proof.
  intros Hcols.
  destruct paths as [|p paths]; [done|].
  destruct (loader (p :: paths)) as [exc|[|d new]] eqn:Hload.
  - unfold _prompt_files. by rewrite Hload.
  - unfold _prompt_files. by rewrite Hload.
  - rewrite (prompt_files_loaded_run loader (p :: paths) st d new) by done.
    unfold columns_ok. simpl.
    eapply Forall_impl; [exact Hcols|].
    intros s (d' & Hd' & Hc). exists d'. split; [|done].
    by apply lookup_app_l_Some.
Qed.

(** X14. Every selection names a column of the dataset it refers to, and
    the handlers that change the selections or the datasets keep it so:
    [_remove_series], [_update_series_color] and [_prompt_files] in any
    state, and [_add_series] in a consistent session, where the selected
    row of the column list is a column of the selected dataset.  So the
    column that [_add_series] never checks is a column of the dataset
    whenever the widgets show what the handlers have put there. *)
Theorem handlers_keep_columns (a : string) (hex : option string)
    (loader : list string → DataLoaderError + list DataSet)
    (paths : list string) st :
  columns_ok st →
  columns_ok (_remove_series a st).2 ∧
  columns_ok (_update_series_color a hex st).2 ∧
  columns_ok (_prompt_files loader paths st).2 ∧
  (consistent st → columns_ok (_add_series a st).2).
Proof.
  intros Hcols. split_and!.
  - by apply remove_series_columns_ok.
  - by apply update_series_color_columns_ok.
  - by apply prompt_files_columns_ok.
  - intros Hc. by apply add_series_columns_ok.
Qed.

End ColumnFacts.

(** ** The figure [_plot_series] builds *)

Section FigureFacts.
Context `{RT : Runtime}.
Implicit Types (st : App) (l : list SeriesSelection) (s : SeriesSelection).

Lemma with_lines_nil (a : Axes) : with_lines [] a = a.
Proof. destruct a. unfold with_lines. simpl. by rewrite app_nil_r. Qed.

Lemma with_lines_plot (ln : Line2D) (ls : list Line2D) (a : Axes) :
  with_lines ls (axes_plot ln a) = with_lines (ln :: ls) a.
Proof. unfold with_lines, axes_plot. simpl. by rewrite <- app_assoc. Qed.

Lemma drawable_cons_skip (ds : list DataSet) (x_column : string) s l :
  plottable ds x_column s = false →
  drawable ds x_column (s :: l) = drawable ds x_column l.
Proof.
  intros Hp. unfold drawable. rewrite filter_cons_False; [done|]. congruence.
Qed.

Lemma drawable_cons_draw (ds : list DataSet) (x_column : string) s l :
  plottable ds x_column s = true →
  drawable ds x_column (s :: l) = s :: drawable ds x_column l.
Proof. intros Hp. unfold drawable. by rewrite filter_cons_True. Qed.

(** The loop in closed form, under the conditions of [plot_loop_ok]. *)
Lemma plot_loop_closed (x_column : string) (n : PlotNumbers) l loc st
    (la : Axes) :
  Forall (λ s, dataset_index s < length (datasets st)) l →
  Forall (λ s, plottable (datasets st) x_column s = true →
               is_Some (line_of (datasets st) x_column n s)) l →
  subplot (figure st) = Some la →
  match ax_right loc with
  | None => twin (figure st) = None
  | Some r => r = RightAxes ∧ is_Some (twin (figure st))
  end →
  plot_loop x_column n l loc st
  = (inr {| ax_right :=
              if decide (drawn_lines (datasets st) x_column n false l = [])
              then ax_right loc else Some RightAxes;
            legend_handles :=
              legend_handles loc ++
              omap (line_of (datasets st) x_column n)
                (drawable (datasets st) x_column l);
            legend_labels :=
              legend_labels loc ++
              (label <$> drawable (datasets st) x_column l) |},
     set_events
       (events st ++ omap (missing_warning (datasets st) x_column) l)
       (set_figure
          {| subplot :=
               Some (with_lines
                       (drawn_lines (datasets st) x_column n true l) la);
             twin :=
               if decide (drawn_lines (datasets st) x_column n false l = [])
               then twin (figure st)
               else Some (with_lines
                            (drawn_lines (datasets st) x_column n false l)
                            (default new_axes (twin (figure st)))) |}
          st)).
Proof.
  revert loc st la.
  induction l as [|s l IH]; intros loc st la Hrefs Hlines Ha Htwin.
  { simpl. unfold drawn_lines, drawable. simpl.
    rewrite with_lines_nil, !app_nil_r. unfold mret, M_ret, ret.
    destruct loc, st as [? ? ? ? ? ? ? ? ? ? ? ? ? ? [? ?] ?].
    simpl in *. by rewrite Ha. }
  apply Forall_cons in Hrefs as [Hs Hrefs].
  apply Forall_cons in Hlines as [Hline Hlines].
  pose proof (missing_warning_plottable (datasets st) x_column s Hs) as Hw.
  destruct (plottable (datasets st) x_column s) eqn:Hp.
  - destruct (Hline eq_refl) as [ln Hln].
    rewrite (plot_loop_draw x_column n s l loc st ln Hp Hln). cbv zeta.
    rewrite !(drawn_lines_cons_draw _ _ _ _ s l ln Hp Hln).
    rewrite (drawable_cons_draw _ _ s l Hp).
    simpl omap. rewrite Hw, Hln. simpl fmap.
    destruct (bool_decide (axis s = "left")) eqn:Hside.
    + match goal with |- context [plot_loop _ _ _ ?loc1 ?st1] =>
        rewrite (IH loc1 st1 (axes_plot ln la) Hrefs Hlines);
          [|by simpl; rewrite Ha|exact Htwin]
      end.
      simpl. rewrite with_lines_plot, <- !app_assoc. simpl.
      by rewrite Ha.
    + destruct (ax_right loc) as [r|] eqn:Hr.
      * destruct Htwin as [-> [b Hb]].
        match goal with |- context [plot_loop _ _ _ ?loc1 ?st1] =>
          rewrite (IH loc1 st1 la Hrefs Hlines);
            [|by simpl; rewrite Ha|by simpl; rewrite Hb]
        end.
        simpl. rewrite Hb. simpl. rewrite with_lines_plot, <- !app_assoc.
        simpl.
        by destruct (decide (drawn_lines _ _ _ false l = [])) as [->|_].
      * match goal with |- context [plot_loop _ _ _ ?loc1 ?st1] =>
          rewrite (IH loc1 st1 la Hrefs Hlines);
            [|by simpl; rewrite Ha|by simpl]
        end.
        simpl. rewrite Htwin. simpl. rewrite with_lines_plot, <- !app_assoc.
        simpl.
        by destruct (decide (drawn_lines _ _ _ false l = [])) as [->|_].
  - destruct Hw as [w Hw].
    rewrite (plot_loop_skip x_column n s l loc st w Hs Hw).
    rewrite !(drawn_lines_cons_skip _ _ _ _ s l Hp).
    rewrite (drawable_cons_skip _ _ s l Hp).
    simpl omap. rewrite Hw.
    rewrite (IH loc (with_event w st) la Hrefs Hlines); [|done|done].
    simpl. by rewrite <- app_assoc.
Qed.

(** [_plot_series] in closed form, when it builds the whole figure. *)
Lemma plot_series_closed st :
  plot_ready st →
  let ds := datasets st in
  let x := x_column_var st in
  let o := options st in
  let n := numbers o in
  let all_lines := omap (line_of ds x n) (drawable ds x (series st)) in
  _plot_series st
  = (inr tt,
     set_events
       (events st ++ omap (missing_warning ds x) (series st) ++ [draw_idle])
       (set_figure
          {| subplot :=
               Some {| lines := drawn_lines ds x n true (series st);
                       xlabel := Py.or_else (Py.strip (x_label_var o)) x;
                       ylabel :=
                         Py.or_else (Py.strip (left_label_var o)) "Left Axis";
                       legend :=
                         if show_legend_var o && bool_decide (all_lines ≠ [])
                         then Some (all_lines,
                                    label <$> drawable ds x (series st))
                         else None;
                       xlim := limits (x_min n) (x_max n);
                       ylim := limits (left_y_min n) (left_y_max n);
                       xscale := scale_of (x_log_var o);
                       yscale := scale_of (left_y_log_var o) |};
             twin :=
               if decide (drawn_lines ds x n false (series st) = [])
               then None
               else
                 Some {| lines := drawn_lines ds x n false (series st);
                         xlabel := "";
                         ylabel :=
                           Py.or_else (Py.strip (right_label_var o))
                             "Right Axis";
                         legend := None;
                         xlim := None;
                         ylim := limits (right_y_min n) (right_y_max n);
                         xscale := "linear";
                         yscale := scale_of (right_y_log_var o) |} |}
          st)).
Proof.
  intros (Hseries & Hx & Hrej & Hrefs & Hlines) ds x o n all_lines.
  rewrite (plot_series_run st Hseries Hx), Hrej. fold x o n.
  unfold plot_figure.
  unfold mbind at 1, M_bind at 1, bind at 1, modify at 1. cbv beta iota.
  unfold mbind at 1, M_bind at 1, bind at 1, modify at 1. cbv beta iota.
  unfold mbind at 1, M_bind at 1, bind at 1, get at 1. cbv beta iota.
  unfold mbind at 1, M_bind at 1, bind at 1.
  match goal with |- context [plot_loop _ _ ?l0 ?loc0 ?st0] =>
    change l0 with (series st);
    rewrite (plot_loop_closed x n (series st) loc0 st0 new_axes Hrefs Hlines);
      [|done|done]
  end.
  cbv beta iota. cbn [datasets set_figure set_events options ax_right
                      legend_handles legend_labels figure events twin subplot].
  fold ds o. fold all_lines.
  set (left_lines := drawn_lines ds x n true (series st)).
  set (right_lines := drawn_lines ds x n false (series st)).
  set (labels := label <$> drawable ds x (series st)).
  set (warnings := omap (missing_warning ds x) (series st)).
  clearbody left_lines right_lines labels warnings all_lines.
  unfold finish_figure, on_axes, limits, scale_of, with_lines.
  cbn [ax_right legend_handles legend_labels app].
  destruct (decide (right_lines = [])) as [->|Hne];
    destruct (show_legend_var o && bool_decide (all_lines ≠ []));
    destruct (is_not_None (x_min n) || is_not_None (x_max n));
    destruct (is_not_None (left_y_min n) || is_not_None (left_y_max n));
    destruct (is_not_None (right_y_min n) || is_not_None (right_y_max n));
    run; unfold modify; simpl; by rewrite <- ?app_assoc.
Qed.



(** X15. When [_plot_series] builds the whole figure, the legend is
    drawn exactly when the legend box is ticked and at least one selection
    could be drawn.  It is one legend, on the first axes, for the lines of
    both axes: its handles are the lines of the selections that could be
    drawn, left and right together in the order of the selection list, and
    its labels are their labels.  The second axes never get a legend. *)
Theorem plot_series_legend st :
  plot_ready st →
  let shown := drawable (datasets st) (x_column_var st) (series st) in
  ∃ (la : Axes) (handles : list Line2D),
    subplot (figure (_plot_series st).2) = Some la ∧
    Forall2 (λ s ln, line_of (datasets st) (x_column_var st)
                       (numbers (options st)) s = Some ln ∧
                     line_label ln = label s ∧ line_color ln = color s)
      shown handles ∧
    legend la
    = (if show_legend_var (options st) && bool_decide (shown ≠ [])
       then Some (handles, label <$> shown) else None) ∧
    ∀ ra, twin (figure (_plot_series st).2) = Some ra → legend ra = None.
Proof.
  intros Hready shown. rewrite (plot_series_closed st Hready). cbv zeta.
  destruct Hready as (_ & _ & _ & _ & Hlines). fold shown.
  assert (Forall2 (λ s ln, line_of (datasets st) (x_column_var st)
                             (numbers (options st)) s = Some ln ∧
                           line_label ln = label s ∧ line_color ln = color s)
            shown
            (omap (line_of (datasets st) (x_column_var st)
                     (numbers (options st))) shown)) as Hhandles.
  { eapply Forall2_impl.
    - apply omap_Forall2, Forall_forall.
      intros s [Hp Hin]%list_elem_of_filter.
      rewrite Forall_forall in Hlines. by apply Hlines.
    - intros s ln Hln. split; [done|]. cbv beta in Hln.
      unfold line_of in Hln.
      repeat match type of Hln with
             | (?m ≫= _) = Some _ => destruct m; simpl in Hln; [|done]
             end.
      by injection Hln as <-. }
  eexists _, _. cbn [snd figure set_figure set_events subplot twin].
  split; [reflexivity|]. split; [exact Hhandles|]. cbn [legend]. split.
  - apply Forall2_length in Hhandles.
    destruct shown, (omap _ _); simpl in *; try done.
  - intros ra. by destruct (decide _); [|intros [= <-]].
Qed.



End FigureFacts.

(** ** When [_plot_series] raises *)

Section RaiseFacts.
Context `{RT : Runtime}.
Implicit Types (st : App) (l : list SeriesSelection) (s : SeriesSelection).






End RaiseFacts.

(** ** Sessions *)

Section SessionFacts.
Context `{RT : Runtime}.
Implicit Types (st : App) (l : list SeriesSelection) (s : SeriesSelection).

(** [_plot_series] leaves alone all but the figure and the events. *)
Lemma plot_series_sans_figure st :
  sans_figure (_plot_series st).2 = sans_figure st.
Proof.
  destruct (decide (series st = [])) as [Hseries|Hseries].
  { by rewrite plot_series_no_series. }
  destruct (decide (x_column_var st = "")) as [Hx|Hx].
  { by rewrite plot_series_no_x_column. }
  rewrite (plot_series_run st Hseries Hx).
  destruct (first_rejected (options st)); [done|].
  by destruct (plot_figure_twice (x_column_var st) (numbers (options st))
                 st st eq_refl) as (_ & Hs & _).
Qed.


(** [_on_column_select], case by case. *)
Lemma on_column_select_cases st :
  _on_column_select st = (inr tt, st) ∨
  (∃ i, curselection (dataset_list st) = Some i ∧ datasets st !! i = None ∧
        _on_column_select st = (inl IndexError, st)) ∨
  (∃ i d c,
     curselection (dataset_list st) = Some i ∧ datasets st !! i = Some d ∧
     _current_column_name st = Some c ∧ c ≠ "" ∧
     _on_column_select st
     = (inr tt, set_series_label_var (name d +:+ ": " +:+ c) st)).
Proof.
  unfold _on_column_select, _current_dataset_index, datasets_getitem. run.
  destruct (curselection (dataset_list st)) as [i|]; [|by left].
  destruct (_current_column_name st) as [c|]; simpl; [|by left].
  destruct (Py.truthy c) eqn:Hc; simpl; [|by left].
  apply truthy_true in Hc.
  destruct (datasets st !! i) as [d|] eqn:Hd; simpl.
  - right. right. by exists i, d, c.
  - right. left. by exists i.
Qed.

Lemma on_column_select_consistent (row : nat) st :
  consistent st →
  (_on_column_select (pick_column_row row st)).1 = inr tt ∧
  consistent (_on_column_select (pick_column_row row st)).2.
Proof.
  intros (Hrefs & Hlists & [Hitems Hsel] & [Hpanel Hcol]).
  assert (consistent (pick_column_row row st)) as Hc.
  { destruct Hlists as ([Hsl Hsr] & Hleft & Hright & Hlsel & Hrsel).
    unfold pick_column_row, listbox_select_only, consistent, valid_refs,
      series_lists_ok, synced, dataset_list_ok, column_panel_ok.
    simpl. split_and!; try done. intros j.
    case_decide as Hlt; [|done]. by intros [= <-]. }
  destruct (on_column_select_cases (pick_column_row row st))
    as [->|[(i & Hi & Hd & _)|(i & d & c & _ & _ & _ & _ & ->)]].
  - done.
  - exfalso. simpl in Hi, Hd. apply Hsel in Hi.
    apply lookup_lt_is_Some_2 in Hi as [d' Hd']. congruence.
  - split; [done|]. revert Hc. by apply consistent_same.
Qed.

(** [_on_dataset_select] leaves the datasets and the selections alone. *)
Lemma on_dataset_select_frame st :
  datasets (_on_dataset_select st).2 = datasets st ∧
  series (_on_dataset_select st).2 = series st.
Proof.
  destruct (curselection (dataset_list st)) as [i|] eqn:Hi.
  - destruct (datasets st !! i) as [d|] eqn:Hd.
    + by rewrite (on_dataset_select_run st i d Hi Hd).
    + unfold _on_dataset_select, datasets_getitem. run. rewrite Hi. simpl.
      by rewrite Hd.
  - by rewrite (on_dataset_select_none st Hi).
Qed.

Lemma frames_ok_same st st' :
  datasets st' = datasets st → frames_ok st → frames_ok st'.
Proof. unfold frames_ok. by intros ->. Qed.

(** The tables of [load] list the columns of their frames. *)
Lemma prompt_files_frames_ok (fs : FileSystem) (paths : list string) st :
  frames_ok st →
  frames_ok (_prompt_files (space_delimited_loader fs) paths st).2.
Proof.
  intros Hframes.
  destruct paths as [|p paths]; [done|].
  destruct (space_delimited_loader fs (p :: paths)) as [exc|[|d new]] eqn:Hload.
  - unfold _prompt_files. by rewrite Hload.
  - unfold _prompt_files. by rewrite Hload.
  - rewrite (prompt_files_loaded_run _ (p :: paths) st d new) by done.
    unfold frames_ok. simpl. apply Forall_app. split; [exact Hframes|].
    change (load_loop SpaceDelimitedLoader_init fs (p :: paths) []
            = inr (d :: new)) in Hload.
    pose proof (load_loop_inv SpaceDelimitedLoader_init fs (p :: paths) [])
      as Hinv.
    rewrite Hload in Hinv. destruct Hinv as (tables & Htables & Hnew).
    simpl in Htables. subst tables.
    eapply Forall2_Forall_r; [exact Hnew|]. apply Forall_forall.
    intros file _ t [Ht _]. unfold load_path in Ht.
    destruct (negb (path_exists fs (resolve fs file))); [done|].
    destruct (read_csv fs (resolve fs file) _) as [|df]; [done|].
    destruct (df_empty df); [done|]. by injection Ht as <-.
Qed.

(** The three hold in every state of a session. *)
Lemma session_inv st :
  session st → consistent st ∧ columns_ok st ∧ frames_ok st.
Proof.
  induction 1 as
    [ rc
    | fs paths st _ (Hc & Hcols & Hfr)
    | row st _ (Hc & Hcols & Hfr)
    | row st _ (Hc & Hcols & Hfr)
    | c st _ (Hc & Hcols & Hfr) Hin
    | text st _ (Hc & Hcols & Hfr)
    | o st _ (Hc & Hcols & Hfr)
    | a row st _ (Hc & Hcols & Hfr)
    | a st _ (Hc & Hcols & Hfr)
    | a st _ (Hc & Hcols & Hfr)
    | a hex st _ (Hc & Hcols & Hfr)
    | st _ (Hc & Hcols & Hfr)
    | st _ (Hc & Hcols & Hfr) ].
  - split; [apply init_consistent|]. split; constructor.
  - split; [by apply prompt_files_consistent|].
    split; [by apply prompt_files_columns_ok | by apply prompt_files_frames_ok].
  - split; [by apply on_dataset_select_consistent|].
    destruct (on_dataset_select_frame (pick_dataset_row row st))
      as [Hd Hs].
    split; [revert Hcols; by apply columns_ok_same|].
    revert Hfr. by apply frames_ok_same.
  - split; [by apply on_column_select_consistent|].
    destruct (on_column_select_cases (pick_column_row row st))
      as [->|[(i & _ & _ & ->)|(i & d & c & _ & _ & _ & _ & ->)]]; done.
  - split; [|done].
    destruct Hc as (Hrefs & Hlists & Hds & [Hpanel Hcol]).
    split; [done|]. split; [done|]. split; [done|]. split; [|done].
    simpl. destruct (curselection (dataset_list st)) as [i|].
    + destruct Hpanel as (d & Hd & Hitems & Hcombo & Hx).
      exists d. split_and!; [done..|]. intros _. by rewrite <- Hcombo.
    + destruct Hpanel as (_ & Hcombo & _). rewrite Hcombo in Hin.
      by apply elem_of_nil in Hin.
  - split; [|done]. revert Hc. by apply consistent_same.
  - split; [|done]. revert Hc. by apply consistent_same.
  - split; [by apply pick_series_row_consistent|].
    unfold pick_series_row. by destruct (bool_decide (a = "left")).
  - split; [by apply add_series_consistent|].
    split; [by apply add_series_columns_ok|].
    revert Hfr. apply frames_ok_same.
    destruct (add_series_consistent a st Hc) as [_ Hc'].
    rewrite add_series_cases.
    destruct (curselection (dataset_list st)); [|done].
    destruct (negb _); [done|]. destruct (negb _); [done|].
    destruct (datasets st !! _); [|done]. destruct (negb _); [done|].
    destruct (cycle_next _) as [[??]|]; [|done].
    by rewrite refresh_series_lists_datasets.
  - split; [by apply remove_series_consistent|].
    split; [by apply remove_series_columns_ok|].
    revert Hfr. apply frames_ok_same.
    unfold _remove_series.
    unfold mbind at 1, M_bind at 1, bind at 1, get at 1. cbv beta iota.
    destruct (_series_widgets a st) as [listbox index_map].
    destruct (curselection listbox) as [r|]; [|done].
    destruct (index_map !! r) as [target|]; [|done].
    case_decide; [|done].
    unfold mbind at 1, M_bind at 1, bind at 1, modify at 1. cbv beta iota.
    by rewrite refresh_series_lists_datasets.
  - split; [by apply update_series_color_consistent|].
    split; [by apply update_series_color_columns_ok|].
    revert Hfr. apply frames_ok_same.
    unfold _update_series_color, series_getitem.
    unfold mbind at 1, M_bind at 1, bind at 1, get at 1. cbv beta iota.
    destruct (_series_widgets a st) as [listbox index_map].
    destruct (curselection listbox) as [r|]; [|done].
    destruct (index_map !! r) as [target|]; [|done].
    unfold mbind at 1, M_bind at 1, bind at 1.
    unfold mbind at 1, M_bind at 1, bind at 1, get at 1. cbv beta iota.
    destruct (series st !! target) as [old|]; [|done].
    unfold mret, M_ret, ret. cbv beta iota.
    destruct (Py.truthy_opt hex); [|done].
    unfold mbind at 1, M_bind at 1, bind at 1, modify at 1. cbv beta iota.
    by rewrite refresh_series_lists_datasets.
  - pose proof (plot_series_sans_figure st) as Hs.
    split; [by apply (consistent_sans_figure st)|].
    split.
    + revert Hcols. apply columns_ok_same;
        [exact (f_equal datasets Hs) | exact (f_equal series Hs)].
    + revert Hfr. apply frames_ok_same. exact (f_equal datasets Hs).
  - split; [by apply (consistent_sans_figure st)|]. done.
Qed.

(** X19. In every state of a session the session is consistent, every
    selection names a column of the dataset it refers to, and every
    dataset lists the columns of its frame: whatever the user has opened,
    clicked and typed, the widgets show what the handlers have put there.
    The handlers that follow the three are those of the buttons, of the
    two lists and of the other widgets of the window. *)
Theorem session_invariant st :
  session st → consistent st ∧ columns_ok st ∧ frames_ok st.
Proof. apply session_inv. Qed.


End SessionFacts.

(** ** The properties on the example session *)

Import Demo.

(** Settles a decidable statement about the example by evaluation. *)
Ltac evaluated :=
  first
    [ vm_compute; reflexivity
    | refine (bool_decide_unpack _ _); vm_compute; exact I ].



(** C3 as stated fails on the code: an axis tag that is neither ["left"]
    nor ["right"] is appended all the same, and so is a column that is not
    among the columns of the selected dataset. *)
Lemma add_series_unchecked_counterexample :
  ("diagonal" ≠ "left" ∧ "diagonal" ≠ "right" ∧
   series Demo.column_b = [] ∧
   (_add_series "diagonal" Demo.column_b).1 = inr tt ∧
   series (_add_series "diagonal" Demo.column_b).2
   = [{| dataset_index := 0; column := "b"; axis := "diagonal";
         label := "run1: b"; color := Some "C0" |}]) ∧
  (_current_dataset_index Demo.stale_column_list = Some 1 ∧
   _current_column_name Demo.stale_column_list = Some "b" ∧
   columns <$> datasets Demo.stale_column_list !! 1 = Some ["a"; "tag"] ∧
   series Demo.stale_column_list = [] ∧
   (_add_series "left" Demo.stale_column_list).1 = inr tt ∧
   series (_add_series "left" Demo.stale_column_list).2
   = [{| dataset_index := 1; column := "b"; axis := "left";
         label := "run1: b"; color := Some "C0" |}]).
Proof. split_and!; first [discriminate | vm_compute; reflexivity]. Qed.

(** C3, as the code has it, on the example: a dataset selection past the
    end of the dataset list raises [IndexError] and changes nothing; the
    tag ["diagonal"] is appended. *)
Lemma add_series_index_checked_column_and_axis_unchecked_witness :
  _add_series "left" Demo.stale_dataset_list
  = (inl IndexError, Demo.stale_dataset_list) ∧
  ∃ color,
    series (_add_series "diagonal" Demo.column_b).2
    = series Demo.column_b ++
      [{| dataset_index := 0; column := "b"; axis := "diagonal";
          label := "run1: b";
          color := Some color |}].
Proof.
  split.
  - apply (add_series_index_checked_column_and_axis_unchecked
             "left" Demo.stale_dataset_list 3 "b");
      first [evaluated | discriminate].
  - apply (add_series_index_checked_column_and_axis_unchecked
             "diagonal" Demo.column_b 0 "b");
      first [evaluated | discriminate].
Defined.

(** C4 on the example: a fresh application, and the three selections with
    the x column cleared. *)
Lemma plot_series_fails_fast_witness :
  _plot_series (App_init None)
  = (inr tt,
     with_event (showinfo "No series" "Add at least one series to plot.")
       (App_init None)) ∧
  _plot_series Demo.no_x_column
  = (inr tt,
     with_event (showinfo "Select X column" "Choose a column for the X axis.")
       Demo.no_x_column).
Proof.
  split.
  - apply (plot_series_fails_fast (App_init None)). reflexivity.
  - apply (plot_series_fails_fast Demo.no_x_column);
      first [discriminate | evaluated].
Defined.


(** C7 on the example: removing the second row of the left list removes
    the third selection. *)
Lemma selections_for_axis_stable_filter_witness :
  series (_remove_series "left" Demo.second_left_row).2
  = delete 2 (series Demo.second_left_row) ∧
  selections_for_axis "left" (_remove_series "left" Demo.second_left_row).2
  = delete 1 (selections_for_axis "left" Demo.second_left_row) ∧
  selections_for_axis "right" (_remove_series "left" Demo.second_left_row).2
  = selections_for_axis "right" Demo.second_left_row.
Proof.
  destruct (selections_for_axis_stable_filter Demo.second_left_row)
    as [_ Hremove].
  - unfold valid_refs. evaluated.
  - destruct (Hremove "left" 1 2) as (_ & Hseries & Hleft & Hother & _).
    + split; evaluated.
    + evaluated.
    + evaluated.
    + split_and!; [exact Hseries | exact Hleft |].
      apply Hother. discriminate.
Defined.



(** C10 on the example: column [b] of [run1] chosen, with the x column
    cleared and with an x column [run1] does not have. *)
Lemma add_series_needs_x_column_witness :
  _add_series "left" Demo.no_x_column
  = (inr tt,
     with_event (showinfo "Select X column"
                   "Choose a column to use for the X axis.")
       Demo.no_x_column) ∧
  _add_series "left" Demo.foreign_x_column
  = (inr tt,
     with_event
       (showerror "Column unavailable"
          "Dataset 'run1' does not contain column 't'.")
       Demo.foreign_x_column).
Proof.
  split.
  - apply (add_series_needs_x_column "left" Demo.no_x_column 0
             {| path := "/data/run1.txt"; columns := ["a"; "b"; "c"];
                data := Demo.run1 |} "b");
      first [discriminate | evaluated].
  - apply (add_series_needs_x_column "left" Demo.foreign_x_column 0
             {| path := "/data/run1.txt"; columns := ["a"; "b"; "c"];
                data := Demo.run1 |} "b");
      first [discriminate | evaluated].
Defined.

(** ** The further properties on the example session *)

(** The example states are states of a session. *)
Lemma opened_session : session Demo.opened.
Proof.
  assert ((_prompt_files (space_delimited_loader Demo.fs)
             ["run1.txt"; "run2.dat"; "run3.dat"] (App_init None)).2
          = Demo.opened) as <- by evaluated.
  apply session_open_files, session_start.
Qed.

Lemma column_b_session : session Demo.column_b.
Proof.
  assert ((_on_column_select (pick_column_row 1 Demo.opened)).2
          = Demo.column_b) as <- by evaluated.
  apply session_column_click, opened_session.
Qed.

Lemma three_series_session : session Demo.three_series.
Proof.
  assert ((_add_series "left"
             (_on_column_select
                (pick_column_row 1
                   (_add_series "right"
                      (_on_column_select
                         (pick_column_row 2
                            (_add_series "left" Demo.column_b).2)).2).2)).2).2
          = Demo.three_series) as <- by evaluated.
  apply session_add, session_column_click, session_add,
    session_column_click, session_add, column_b_session.
Qed.

Lemma second_left_row_session : session Demo.second_left_row.
Proof.
  assert (pick_series_row "left" 1 Demo.three_series = Demo.second_left_row)
    as <- by evaluated.
  apply session_series_click, three_series_session.
Qed.


Ltac plot_ready_evaluated :=
  unfold plot_ready, valid_refs; split_and!; first [discriminate | evaluated].

(** X2 on the example: the three tables of the three files. *)
Lemma load_tables_not_empty_witness :
  Forall (λ t, columns t ≠ [] ∧ df_rows (data t) ≠ [] ∧
               columns t = df_columns (data t) ∧
               path_exists Demo.fs (path t) = true)
    (datasets Demo.opened).
Proof.
  apply (load_tables_not_empty SpaceDelimitedLoader_init Demo.fs
           ["run1.txt"; "run2.dat"; "run3.dat"]).
  evaluated.
Defined.


(** X5 on the example: the third file opened once more, after the three. *)
Lemma prompt_files_loaded_witness :
  let d := {| path := "/data/run3.dat"; columns := ["t"; "v"];
              data := Demo.run3 |} in
  _prompt_files Demo.loader ["run3.dat"] Demo.opened
  = (inr tt,
     set_x_column_var (x_column_for (x_column_var Demo.opened) d)
       (set_x_column_combo (columns d)
          (set_column_list {| items := columns d; curselection := None |}
             (set_dataset_var ("Selected: " +:+ name d)
                (set_dataset_list
                   {| items := name <$> (datasets Demo.opened ++ [d]);
                      curselection := Some (length (datasets Demo.opened)) |}
                   (set_datasets (datasets Demo.opened ++ [d])
                      Demo.opened)))))).
Proof.
  intros d.
  apply (prompt_files_loaded Demo.loader ["run3.dat"] Demo.opened d []);
    first [discriminate | evaluated].
Defined.

(** X7 on the example: the two lists of the three selections. *)
Lemma refresh_series_lists_rows_aligned_witness :
  Forall2
    (λ (row : string) (i : nat),
       ∃ s d, series Demo.three_series !! i = Some s ∧
              datasets Demo.three_series !! dataset_index s = Some d ∧
              row = series_display d s ∧ axis s = "left")
    (items (left_series_listbox
              (_refresh_series_lists Demo.three_series).2))
    (left_series_indices (_refresh_series_lists Demo.three_series).2) ∧
  Forall2
    (λ (row : string) (i : nat),
       ∃ s d, series Demo.three_series !! i = Some s ∧
              datasets Demo.three_series !! dataset_index s = Some d ∧
              row = series_display d s ∧ axis s ≠ "left")
    (items (right_series_listbox
              (_refresh_series_lists Demo.three_series).2))
    (right_series_indices (_refresh_series_lists Demo.three_series).2).
Proof.
  apply (refresh_series_lists_rows_aligned Demo.three_series).
  unfold valid_refs. evaluated.
Defined.

(** X10 on the example: the second row of the left list, which stands
    for the third selection, recolored. *)
Lemma update_series_color_only_color_witness :
  ∃ old,
    series Demo.second_left_row !! 2 = Some old ∧
    (_update_series_color "left" (Some "#ff0000") Demo.second_left_row).1
    = inr tt ∧
    series (_update_series_color "left" (Some "#ff0000")
              Demo.second_left_row).2
    = <[2 := recolored (Some "#ff0000") old]> (series Demo.second_left_row) ∧
    selections_for_axis "left"
      (_update_series_color "left" (Some "#ff0000") Demo.second_left_row).2
    = <[1 := recolored (Some "#ff0000") old]>
        (selections_for_axis "left" Demo.second_left_row) ∧
    (∀ b, bool_decide (b = "left") ≠ bool_decide ("left" = "left") →
       selections_for_axis b
         (_update_series_color "left" (Some "#ff0000")
            Demo.second_left_row).2
       = selections_for_axis b Demo.second_left_row) ∧
    color_cycle
      (_update_series_color "left" (Some "#ff0000") Demo.second_left_row).2
    = color_cycle Demo.second_left_row.
Proof.
  apply (update_series_color_only_color "left" (Some "#ff0000")
           Demo.second_left_row 1 2).
  - unfold valid_refs. evaluated.
  - split; evaluated.
  - evaluated.
  - evaluated.
Defined.

(** X11 on the example: column [b] added on the right axis and removed
    again. *)
Lemma add_then_remove_restores_witness :
  let st1 := (_add_series "right" Demo.column_b).2 in
  let last := length (_series_widgets "right" st1).2 - 1 in
  let st2 := pick_series_row "right" last st1 in
  (_remove_series "right" st2).1 = inr tt ∧
  series (_remove_series "right" st2).2 = series Demo.column_b ∧
  taken (color_cycle (_remove_series "right" st2).2)
  = S (taken (color_cycle Demo.column_b)).
Proof.
  apply (add_then_remove_restores "right" Demo.column_b 0
           {| path := "/data/run1.txt"; columns := ["a"; "b"; "c"];
              data := Demo.run1 |} "b").
  - unfold add_ready. split_and!; first [discriminate | evaluated].
  - unfold valid_refs. evaluated.
  - discriminate.
Defined.

(** X12 on the example: the third file opened once more, and the second
    dataset picked. *)
Lemma dataset_handlers_keep_consistent_witness :
  ((_prompt_files Demo.loader ["run3.dat"] Demo.opened).1 = inr tt ∧
   consistent (_prompt_files Demo.loader ["run3.dat"] Demo.opened).2) ∧
  ((_on_dataset_select
      (set_dataset_list
         (listbox_select_only 1 (dataset_list Demo.opened)) Demo.opened)).1
   = inr tt ∧
   consistent
     (_on_dataset_select
        (set_dataset_list
           (listbox_select_only 1 (dataset_list Demo.opened))
           Demo.opened)).2).
Proof.
  destruct (dataset_handlers_keep_consistent None Demo.loader ["run3.dat"] 1
              Demo.opened) as (_ & Hopen & Hpick).
  pose proof (session_inv _ opened_session) as (Hc & _).
  split; [exact (Hopen Hc) | exact (Hpick Hc)].
Defined.


(** X14 on the example: the three selections. *)
Lemma handlers_keep_columns_witness :
  columns_ok (_remove_series "left" Demo.second_left_row).2 ∧
  columns_ok
    (_update_series_color "left" (Some "#00ff00") Demo.second_left_row).2 ∧
  columns_ok (_prompt_files Demo.loader ["run3.dat"] Demo.second_left_row).2 ∧
  (consistent Demo.second_left_row →
   columns_ok (_add_series "left" Demo.second_left_row).2).
Proof.
  apply (handlers_keep_columns "left" (Some "#00ff00") Demo.loader
           ["run3.dat"] Demo.second_left_row).
  apply session_inv, second_left_row_session.
Defined.

(** X15 on the example: the legend of the three selections lists the
    three lines, the one of the right axes between the two of the left. *)
Lemma plot_series_legend_witness :
  legend <$> subplot (figure (_plot_series Demo.three_series).2)
  = Some (Some ([{| xdata := [Demo.Num 1; Demo.Num 4];
                    ydata := [Demo.Num 2; Demo.Num 5];
                    line_label := "run1: b"; line_color := Some "C0" |};
                 {| xdata := [Demo.Num 1; Demo.Num 4];
                    ydata := [Demo.Num 3; Demo.Num 6];
                    line_label := "run1: c"; line_color := Some "C1" |};
                 {| xdata := [Demo.Num 1; Demo.Num 4];
                    ydata := [Demo.Num 2; Demo.Num 5];
                    line_label := "run1: b"; line_color := Some "C2" |}],
                ["run1: b"; "run1: c"; "run1: b"])) ∧
  legend <$> twin (figure (_plot_series Demo.three_series).2) = Some None.
Proof.
  destruct (plot_series_legend Demo.three_series)
    as (la & handles & Hsub & Hhandles & Hlegend & Htwin).
  { plot_ready_evaluated. }
  split.
  - rewrite Hsub. simpl. rewrite Hlegend. clear Hsub Hlegend Htwin.
    vm_compute in Hhandles.
    repeat match goal with
    | H : Forall2 _ (_ :: _) _ |- _ =>
        apply Forall2_cons_inv_l in H as (? & ? & [? _] & H & ->)
    | H : Forall2 _ [] _ |- _ => apply Forall2_nil_inv_l in H as ->
    end.
    repeat match goal with H : Some _ = Some _ |- _ =>
      injection H as <- end.
    vm_compute. reflexivity.
  - destruct (twin (figure (_plot_series Demo.three_series).2)) as [ra|] eqn:Hra.
    + simpl. by rewrite (Htwin ra eq_refl).
    + exfalso. vm_compute in Hra. discriminate.
Defined.




(** X19 on the example: the state with the three selections. *)
Lemma session_invariant_witness :
  consistent Demo.three_series ∧ columns_ok Demo.three_series ∧
  frames_ok Demo.three_series.
Proof. apply (session_invariant Demo.three_series), three_series_session. Defined.

